(** * The message element model of graiax.mockery

    [src/graiax/mockery/model/message.py] declares the message elements of
    the mirai-api-http protocol as pydantic (v1) models: a base class
    [Element], its subclasses, the nested record [ForwardNode] and the
    custom-root container [MessageChain].  The file holds declarations
    only; decoding (the constructor call, [parse_obj], field validation) and
    encoding ([.dict()]) are what pydantic's [BaseModel] does with those
    declarations.  This development embeds the declarations as a table of
    field descriptors and the part of [BaseModel] that acts on them, and
    proves what the documentation of the model says about it. *)

From Stdlib Require Import List String Ascii ZArith Bool Lia DecimalString.
Import ListNotations.
Local Open Scope string_scope.
Local Open Scope list_scope.
Set Warnings "-register-all".

(** ** Python values *)

(** A [datetime.datetime] object: its calendar fields and the offset of its
    time zone in seconds ([None] for a naive datetime). *)
Record datetime := mk_datetime {
  dt_year : Z; dt_month : Z; dt_day : Z;
  dt_hour : Z; dt_minute : Z; dt_second : Z; dt_microsecond : Z;
  dt_tzinfo : option Z
}.

(** The Python objects the model handles: what a JSON document parses to
    (with string keys in dicts, and without floats), datetime objects, and
    instances of the model classes.  An instance is its class name and its
    [__dict__], the field values in field order.  A member of one of the two
    [str]-based enumerations is a [str] instance equal to its value and is
    written [PStr].  A dict is the list of its items in insertion order, its
    keys distinct.  A character of a [string] stands for one code point.
    The annotations of the fields let the code take other objects too (a
    tuple, a set, a deque or a generator where a list is expected; a float
    or bytes where a number, a string or a datetime is expected); these are
    outside the model, and every statement below is about the objects
    listed here. *)
Inductive pyobj :=
| PNone
| PBool (b : bool)
| PInt (n : Z)
| PStr (s : string)
| PDatetime (d : datetime)
| PList (items : list pyobj)
| PDict (items : list (string * pyobj))
| PModel (cls : string) (d : list (string * pyobj)).

(** [d.get(key)] on a dict kept as an association list. *)
Fixpoint get {A} (key : string) (d : list (string * A)) : option A :=
  match d with
  | [] => None
  | (k, v) :: rest => if String.eqb k key then Some v else get key rest
  end.

(** [d[key] = v]: an existing key keeps its position. *)
Fixpoint setitem {A} (key : string) (v : A) (d : list (string * A)) : list (string * A) :=
  match d with
  | [] => [(key, v)]
  | (k, x) :: rest =>
      if String.eqb k key then (k, v) :: rest else (k, x) :: setitem key v rest
  end.

Definition keys {A} (d : list (string * A)) : list string := map fst d.

(** ** Errors *)

Inductive loc_item := LKey (k : string) | LIdx (i : nat).

(** The error classes of pydantic that the validators of this model raise;
    [PyTypeError] and [PyValueError] are a plain [TypeError] and a plain
    [ValueError]. *)
Inductive error_kind :=
| MissingError
| NoneIsNotAllowedError
| StrError
| IntegerError
| EnumMemberError
| DateTimeError
| DictError
| ListError
| PyTypeError
| PyValueError.

(** One line of [ValidationError.errors()]: the location and the error. *)
Definition ErrorWrapper : Type := list loc_item * error_kind.

(** What a validator gives: the validated value, or the errors it raised
    (the lines of a nested [ValidationError] already flattened). *)
Inductive outcome :=
| Valid (v : pyobj)
| Invalid (errors : list ErrorWrapper).

(** What a constructor call or [parse_obj] gives: the instance, a
    [ValidationError] for a model, or an uncaught [TypeError]. *)
Inductive result :=
| Ok (v : pyobj)
| ValidationError (model : string) (errors : list ErrorWrapper)
| TypeError.

Definition relocate (loc : list loc_item) (errors : list ErrorWrapper) : list ErrorWrapper :=
  map (fun e => (loc ++ fst e, snd e)) errors.

Definition at_loc (loc : list loc_item) (o : outcome) : outcome :=
  match o with
  | Valid v => Valid v
  | Invalid errors => Invalid (relocate loc errors)
  end.

(** ** Field descriptors *)

Inductive shape := SHAPE_SINGLETON | SHAPE_LIST.

(** What pydantic's [ModelField] records of a declaration. *)
Record FieldInfo := mk_field {
  name : string;
  alias : string;
  field_shape : shape;
  required : bool;
  default : pyobj;
  allow_none : bool
}.

(** The annotation of a field: its outer type, down to the fields of a
    model class it refers to. *)
Inductive type_ :=
| T_str
| T_int
| T_datetime
| T_enum (enum : string) (members : list string)
| T_model (cls : string) (fields : list (FieldInfo * type_)).

(** [x: T] *)
Definition req (n : string) (t : type_) : FieldInfo * type_ :=
  (mk_field n n SHAPE_SINGLETON true PNone false, t).

(** [x: Optional[T]] and [x: Optional[T] = None]: pydantic v1 makes both
    optional with the default [None]. *)
Definition opt (n : string) (t : type_) : FieldInfo * type_ :=
  (mk_field n n SHAPE_SINGLETON false PNone true, t).

(** [x: List[T]] *)
Definition req_list (n : string) (t : type_) : FieldInfo * type_ :=
  (mk_field n n SHAPE_LIST true PNone false, t).

(** [type: str = "Tag"] and the unannotated [type = "Tag"], which
    overrides the inherited field keeping its type. *)
Definition tag (t : string) : FieldInfo * type_ :=
  (mk_field "type" "type" SHAPE_SINGLETON false (PStr t) false, T_str).

(** ** The declarations of [message.py] *)

Definition Element : type_ := T_model "Element" [tag "Unknown"].

(** [MessageChain] is declared last in the source and referred to by name
    from [Quote] and [ForwardNode]; [update_forward_refs] resolves the two
    references to the class. *)
Definition MessageChain : type_ :=
  T_model "MessageChain" [req_list "__root__" Element].

Definition Plain : type_ := T_model "Plain" [tag "Plain"; req "text" T_str].

Definition Source : type_ :=
  T_model "Source" [tag "Source"; req "id" T_int; req "time" T_datetime].

Definition Quote : type_ :=
  T_model "Quote"
    [tag "Quote"; req "id" T_int; req "groupId" T_int; req "senderId" T_int;
     req "targetId" T_int; req "origin" MessageChain].

Definition At : type_ :=
  T_model "At" [tag "At"; req "target" T_int; opt "display" T_str].

Definition AtAll : type_ := T_model "AtAll" [tag "AtAll"].

Definition Face : type_ :=
  T_model "Face" [tag "Face"; opt "faceId" T_int; opt "name" T_str].

Definition MarketFace : type_ :=
  T_model "MarketFace" [tag "MarketFace"; req "id" T_int; req "name" T_str].

Definition Xml : type_ := T_model "Xml" [tag "Xml"; req "xml" T_str].

(** [Json: str = Field(None, alias="json")]: the default [None] makes the
    field optional and lets it hold [None]. *)
Definition Json : type_ :=
  T_model "Json"
    [tag "Json"; (mk_field "Json" "json" SHAPE_SINGLETON false PNone true, T_str)].

Definition App : type_ := T_model "App" [tag "App"; req "content" T_str].

Definition PokeMethods : list string :=
  ["ChuoYiChuo"; "BiXin"; "DianZan"; "XinSui"; "LiuLiuLiu"; "FangDaZhao";
   "BaoBeiQiu"; "Rose"; "ZhaoHuanShu"; "RangNiPi"; "JeiYin"; "ShouLei";
   "GouYin"; "ZhuaYiXia"; "SuiPing"; "QiaoMen"].

Definition Poke : type_ :=
  T_model "Poke" [tag "Poke"; req "name" (T_enum "PokeMethods" PokeMethods)].

Definition Dice : type_ := T_model "Dice" [tag "Dice"; req "value" T_int].

Definition MusicShareKind : list string :=
  ["NeteaseCloudMusic"; "QQMusic"; "MiguMusic"; "KugouMusic"; "KuwoMusic"].

Definition MusicShare : type_ :=
  T_model "MusicShare"
    [tag "MusicShare"; req "kind" (T_enum "MusicShareKind" MusicShareKind);
     opt "title" T_str; opt "summary" T_str; opt "jumpUrl" T_str;
     opt "pictureUrl" T_str; opt "musicUrl" T_str; opt "brief" T_str].

Definition ForwardNode : type_ :=
  T_model "ForwardNode"
    [req "senderId" T_int; req "time" T_datetime; req "senderName" T_str;
     opt "messageChain" MessageChain; opt "messageId" T_int].

Definition Forward : type_ :=
  T_model "Forward" [tag "Forward"; req_list "nodeList" ForwardNode].

Definition File : type_ :=
  T_model "File" [tag "File"; req "id" T_str; req "name" T_str; req "size" T_int].

Definition MiraiCode : type_ :=
  T_model "MiraiCode" [tag "MiraiCode"; req "code" T_str].

Definition MultimediaElement : type_ :=
  T_model "MultimediaElement"
    [tag "Unknown"; opt "id" T_str; opt "url" T_str; opt "path" T_str;
     opt "base64" T_str].

Definition Image : type_ :=
  T_model "Image"
    [tag "Image"; opt "imageId" T_str; opt "url" T_str; opt "path" T_str;
     opt "base64" T_str].

Definition FlashImage : type_ :=
  T_model "FlashImage"
    [tag "FlashImage"; opt "imageId" T_str; opt "url" T_str; opt "path" T_str;
     opt "base64" T_str].

Definition Voice : type_ :=
  T_model "Voice"
    [tag "Voice"; opt "voiceId" T_str; opt "url" T_str; opt "path" T_str;
     opt "base64" T_str; opt "length" T_int].

(** The subclasses of [Element] that set a tag of their own. *)
Definition variants : list type_ :=
  [Plain; Source; Quote; At; AtAll; Face; MarketFace; Xml; Json; App; Poke;
   Dice; MusicShare; Forward; File; MiraiCode; Image; FlashImage; Voice].

(** Every model class of the module. *)
Definition classes : list type_ :=
  Element :: MultimediaElement :: ForwardNode :: MessageChain :: variants.

Definition class_name (t : type_) : string :=
  match t with
  | T_model cls _ => cls
  | _ => ""
  end.

Definition class_fields (t : type_) : list (FieldInfo * type_) :=
  match t with
  | T_model _ fields => fields
  | _ => []
  end.

(** [cls.__fields__] found by the name of the class. *)
Fixpoint find_class (cls : string) (table : list type_) : option type_ :=
  match table with
  | [] => None
  | t :: rest => if String.eqb (class_name t) cls then Some t else find_class cls rest
  end.

(** [issubclass(c, cls)] for classes of the module: a class is a subclass of
    itself, and [MultimediaElement] and the variants derive from [Element]. *)
Definition issubclass (c cls : string) : bool :=
  String.eqb c cls
  || (String.eqb cls "Element"
      && existsb (String.eqb c) (map class_name (MultimediaElement :: variants))).

Definition isinstance (v : pyobj) (cls : string) : bool :=
  match v with
  | PModel c _ => issubclass c cls
  | _ => false
  end.

(** ** pydantic's [BaseModel] on these declarations *)

(** A validator takes the input value and gives the validated value or
    raises; a [ModelField] is a declaration with the validator of its type. *)
Definition validator : Type := pyobj -> outcome.
Definition ModelField : Type := FieldInfo * validator.

Definition raise (e : error_kind) : outcome := Invalid [([], e)].

(** The sub-field of the items of a list field: [None] is settled before
    the validator runs, and no list of this module has optional items. *)
Definition validate_item (val : validator) : validator :=
  fun v =>
    match v with
    | PNone => raise NoneIsNotAllowedError
    | _ => val v
    end.

(** [ModelField._validate_sequence_like]: every item is validated by the
    sub-field, the errors of all failing items are kept with the index of
    the item. *)
Fixpoint validate_sequence_like (val : validator) (loc : list loc_item) (i : nat)
    (items : list pyobj) : list pyobj * list ErrorWrapper :=
  match items with
  | [] => ([], [])
  | v :: rest =>
      let (result, errors) := validate_sequence_like val loc (S i) rest in
      match validate_item val v with
      | Valid r => (r :: result, errors)
      | Invalid ee => (result, relocate (loc ++ [LIdx i]) ee ++ errors)
      end
  end.

(** [ModelField.validate]: [None] is settled by [allow_none] before any
    validator runs; the items of a list go to the sub-field of the items. *)
Definition ModelField_validate (f : ModelField) (v : pyobj) : outcome :=
  let loc := [LKey (alias (fst f))] in
  match v with
  | PNone =>
      if allow_none (fst f) then Valid PNone
      else Invalid [(loc, NoneIsNotAllowedError)]
  | PList items =>
      match field_shape (fst f) with
      | SHAPE_SINGLETON => at_loc loc (snd f v)
      | SHAPE_LIST =>
          match validate_sequence_like (snd f) loc 0 items with
          | (result, []) => Valid (PList result)
          | (_, errors) => Invalid errors
          end
      end
  | _ =>
      match field_shape (fst f) with
      | SHAPE_SINGLETON => at_loc loc (snd f v)
      | SHAPE_LIST => Invalid [(loc, ListError)]
      end
  end.

(** [validate_model]: the fields in declaration order, each looked up in
    the input by its alias; keys of the input that no field reads are
    ignored ([Config.extra] is left at [ignore]); a default is not
    validated.  Gives the values and the errors, both in field order. *)
Fixpoint validate_model (fields : list ModelField) (input_data : list (string * pyobj))
    : list (string * pyobj) * list ErrorWrapper :=
  match fields with
  | [] => ([], [])
  | f :: rest =>
      let (values, errors) := validate_model rest input_data in
      match get (alias (fst f)) input_data with
      | None =>
          if required (fst f)
          then (values, ([LKey (alias (fst f))], MissingError) :: errors)
          else ((name (fst f), default (fst f)) :: values, errors)
      | Some value =>
          match ModelField_validate f value with
          | Valid v_ => ((name (fst f), v_) :: values, errors)
          | Invalid errors_ => (values, errors_ ++ errors)
          end
      end
  end.

(** [BaseModel.__init__(__pydantic_self__, **data)]: the call of a class on
    keyword arguments.  A keyword named like the first parameter cannot be
    bound and the call raises a [TypeError] before anything is validated. *)
Definition init (cls : string) (fields : list ModelField) (data : list (string * pyobj))
    : result :=
  match get "__pydantic_self__" data with
  | Some _ => TypeError
  | None =>
      match validate_model fields data with
      | (values, []) => Ok (PModel cls values)
      | (_, errors) => ValidationError cls errors
      end
  end.

(** The built-in [dict(value)] followed by the call [cls] makes with the
    result as keywords.  [dict] takes a dict as it is, a model instance as
    the items of its [__dict__], and a sequence whose items are each a
    sequence of two objects, the first of them hashable; the call then needs
    every key to be a [str]. *)
Inductive update_item :=
| StrKey (k : string) (v : pyobj)
| OtherKey
| BadItem.

Definition update_item_of (item : pyobj) : update_item :=
  match item with
  | PList [PStr k; v] => StrKey k v
  | PList [PNone; _] | PList [PBool _; _] | PList [PInt _; _]
  | PList [PDatetime _; _] => OtherKey
  | PStr (String a (String b EmptyString)) =>
      StrKey (String a EmptyString) (PStr (String b EmptyString))
  | PDict [(k1, _); (k2, _)] => StrKey k1 (PStr k2)
  | PModel _ [(_, PNone); _] | PModel _ [(_, PBool _); _]
  | PModel _ [(_, PInt _); _] | PModel _ [(_, PStr _); _]
  | PModel _ [(_, PDatetime _); _] => OtherKey
  | _ => BadItem
  end.

Inductive keywords :=
| Kwargs (kw : list (string * pyobj))
| NotADict
| NonStrKeywords.

Fixpoint dict_update (items : list pyobj) (acc : list (string * pyobj)) (str_keys : bool)
    : keywords :=
  match items with
  | [] => if str_keys then Kwargs acc else NonStrKeywords
  | item :: rest =>
      match update_item_of item with
      | StrKey k v => dict_update rest (setitem k v acc) str_keys
      | OtherKey => dict_update rest acc false
      | BadItem => NotADict
      end
  end.

Definition as_keywords (value : pyobj) : keywords :=
  match value with
  | PDict items => Kwargs items
  | PModel _ d => Kwargs d
  | PList items => dict_update items [] true
  | PStr EmptyString => Kwargs []
  | _ => NotADict
  end.

Definition custom_root (fields : list ModelField) : bool :=
  existsb (fun f => String.eqb (name (fst f)) "__root__") fields.

(** [BaseModel._enforce_dict_if_root]: a class with a [__root__] field
    wraps every object that is neither a dict with the single key [__root__]
    nor an instance whose only field is [__root__]. *)
Definition enforce_dict_if_root (fields : list ModelField) (obj : pyobj) : pyobj :=
  if custom_root fields then
    match obj with
    | PDict [(k, _)] | PModel _ [(k, _)] =>
        if String.eqb k "__root__" then obj else PDict [("__root__", obj)]
    | _ => PDict [("__root__", obj)]
    end
  else obj.

(** [BaseModel.validate], the validator of a field whose type is a model
    class: an instance of the class (or of a subclass) is kept; anything
    else is made keywords and the class itself is called on them. *)
Definition Model_validate (cls : string) (fields : list ModelField) : validator :=
  fun value =>
    if isinstance value cls then Valid value
    else
      match as_keywords (enforce_dict_if_root fields value) with
      | Kwargs kw =>
          match init cls fields kw with
          | Ok v => Valid v
          | ValidationError _ errors => Invalid errors
          | TypeError => raise PyTypeError
          end
      | NotADict => raise DictError
      | NonStrKeywords => raise PyTypeError
      end.

(** [BaseModel.parse_obj] *)
Definition BaseModel_parse_obj (cls : string) (fields : list ModelField) (obj : pyobj)
    : result :=
  match as_keywords (enforce_dict_if_root fields obj) with
  | Kwargs kw => init cls fields kw
  | NotADict => ValidationError cls [([LKey "__root__"], PyTypeError)]
  | NonStrKeywords => TypeError
  end.

(** ** The validators of the field types *)

(** What the validators take from the Python runtime: [int(s)] and
    [str(n)] ([None] when they raise [ValueError]), and pydantic's
    [datetime_parse] on a number of seconds ([None] when it rejects the
    number) and on a string (the datetime, or the error it raises: a
    [DateTimeError] for a string it cannot read, a plain [ValueError] for
    one that reads as a number that is not a time). *)
Record Builtins := mk_builtins {
  int_of_str : string -> option Z;
  str_of_int : Z -> option string;
  datetime_of_int : Z -> option datetime;
  datetime_of_str : string -> datetime + error_kind
}.

Section Validators.

Variable py : Builtins.

(** [str_validator]: a [str] as it is, a number through [str]. *)
Definition str_validator : validator :=
  fun v =>
    match v with
    | PStr s => Valid (PStr s)
    | PBool b => Valid (PStr (if b then "True" else "False"))
    | PInt n =>
        match str_of_int py n with
        | Some s => Valid (PStr s)
        | None => raise PyValueError
        end
    | _ => raise StrError
    end.

(** [int_validator]: an [int] that is not a [bool] as it is, anything else
    through [int]. *)
Definition int_validator : validator :=
  fun v =>
    match v with
    | PInt n => Valid (PInt n)
    | PBool b => Valid (PInt (if b then 1 else 0))
    | PStr s =>
        match int_of_str py s with
        | Some n => Valid (PInt n)
        | None => raise IntegerError
        end
    | _ => raise IntegerError
    end.

(** [parse_datetime] *)
Definition parse_datetime : validator :=
  fun v =>
    match v with
    | PDatetime d => Valid (PDatetime d)
    | PInt n =>
        match datetime_of_int py n with
        | Some d => Valid (PDatetime d)
        | None => raise DateTimeError
        end
    | PBool b =>
        match datetime_of_int py (if b then 1 else 0) with
        | Some d => Valid (PDatetime d)
        | None => raise DateTimeError
        end
    | PStr s =>
        match datetime_of_str py s with
        | inl d => Valid (PDatetime d)
        | inr e => raise e
        end
    | _ => raise PyTypeError
    end.

(** [enum_member_validator]: the call of the enumeration on the value
    finds the member with that value. *)
Definition enum_member_validator (members : list string) : validator :=
  fun v =>
    match v with
    | PStr s =>
        if existsb (String.eqb s) members then Valid (PStr s)
        else raise EnumMemberError
    | _ => raise EnumMemberError
    end.

(** The validator of an annotation. *)
Fixpoint validate (t : type_) : validator :=
  match t with
  | T_str => str_validator
  | T_int => int_validator
  | T_datetime => parse_datetime
  | T_enum _ members => enum_member_validator members
  | T_model cls fields =>
      Model_validate cls (map (fun f => (fst f, validate (snd f))) fields)
  end.

(** [cls.__fields__] *)
Definition model_fields (t : type_) : list ModelField :=
  map (fun f => (fst f, validate (snd f))) (class_fields t).

(** The call of a model class on keyword arguments, for a class that keeps
    the [__init__] of [BaseModel]: every class of the module but
    [MessageChain]. *)
Definition construct (t : type_) (data : list (string * pyobj)) : result :=
  init (class_name t) (model_fields t) data.

Definition parse_obj (t : type_) (obj : pyobj) : result :=
  BaseModel_parse_obj (class_name t) (model_fields t) obj.

(** [MessageChain.__init__(self, __root__)]: the only method the module
    defines; it hands its argument to [BaseModel.__init__] as the keyword
    [__root__]. *)
Definition MessageChain_init (__root__ : pyobj) : result :=
  init "MessageChain" (model_fields MessageChain) [("__root__", __root__)].

End Validators.

(** ** Encoding: [BaseModel.dict] *)

(** The key a field is written under: its alias when [by_alias] is set and
    the class declares the field, its name otherwise. *)
Definition dict_key (by_alias : bool) (cls k : string) : string :=
  if by_alias then
    match find_class cls classes with
    | Some t =>
        match find (fun f => String.eqb (name (fst f)) k) (class_fields t) with
        | Some f => alias (fst f)
        | None => k
        end
    | None => k
    end
  else k.

(** [BaseModel._get_value] with [to_dict=True]: a nested instance becomes
    its dict, and a nested custom-root instance the value of its
    [__root__]; dicts and lists are walked; any other object is kept. *)
Fixpoint get_value (by_alias : bool) (v : pyobj) : pyobj :=
  match v with
  | PModel cls d =>
      let v_dict :=
        map (fun kv => (dict_key by_alias cls (fst kv), get_value by_alias (snd kv))) d in
      match get "__root__" v_dict with
      | Some root => root
      | None => PDict v_dict
      end
  | PDict items => PDict (map (fun kv => (fst kv, get_value by_alias (snd kv))) items)
  | PList items => PList (map (get_value by_alias) items)
  | _ => v
  end.

(** [self.dict(by_alias=...)]; [by_alias] is [False] unless the caller
    sets it.  Only an instance has the method. *)
Definition dict_ (by_alias : bool) (self : pyobj) : option pyobj :=
  match self with
  | PModel cls d =>
      Some (PDict (map (fun kv => (dict_key by_alias cls (fst kv),
                                   get_value by_alias (snd kv))) d))
  | _ => None
  end.

(** ** A runtime for the examples *)

(** The examples below are evaluated with this runtime: [int] and [str] on
    plain decimal numerals, no conversion of numbers or strings to
    datetimes.  It is not the runtime of Python, whose [int] also reads a
    sign, blanks and underscores and whose datetime parser converts numbers
    and strings.  The theorems hold for every runtime; the examples ask the
    runtime for nothing but [int] of a plain numeral or of a word without
    digits. *)
Definition numerals : Builtins :=
  mk_builtins
    (fun s => option_map Z.of_int (NilZero.int_of_string s))
    (fun n => Some (NilZero.string_of_int (Z.to_int n)))
    (fun _ => None)
    (fun _ => inr DateTimeError).

(** ** Values of the model *)

(** An instance of the base class: its only field is [type]. *)
Definition base_element (t : string) : pyobj := PModel "Element" [("type", PStr t)].

Definition chain_of (elements : list pyobj) : pyobj :=
  PModel "MessageChain" [("__root__", PList elements)].

Definition Json_element (s : string) : pyobj :=
  PModel "Json" [("type", PStr "Json"); ("Json", PStr s)].

(** Plain data: no instance of a model class anywhere inside. *)
Fixpoint plain (v : pyobj) : bool :=
  match v with
  | PModel _ _ => false
  | PList items => forallb plain items
  | PDict items => forallb (fun kv => plain (snd kv)) items
  | _ => true
  end.

(** The values a field may hold, given what its type admits: [None] where
    the field allows it, a list of admitted items for a list field. *)
Definition field_admits (adm : pyobj -> type_ -> bool) (x : pyobj) (f : FieldInfo * type_)
    : bool :=
  match x with
  | PNone => allow_none (fst f)
  | PList items =>
      match field_shape (fst f) with
      | SHAPE_SINGLETON => adm x (snd f)
      | SHAPE_LIST => forallb (fun i => adm i (snd f)) items
      end
  | _ =>
      match field_shape (fst f) with
      | SHAPE_SINGLETON => adm x (snd f)
      | SHAPE_LIST => false
      end
  end.

(** A [__dict__] that has the declared fields, in order, with admitted
    values. *)
Definition fields_admit (adm : pyobj -> type_ -> bool)
    : list (string * pyobj) -> list (FieldInfo * type_) -> bool :=
  fix go d fs :=
    match d, fs with
    | [], [] => true
    | kx :: d', f :: fs' =>
        String.eqb (fst kx) (name (fst f)) && field_admits adm (snd kx) f && go d' fs'
    | _, _ => false
    end.

(** A valid value of an annotation, as a program can build it: where the
    annotation is a model class, an instance of the class or of any of its
    subclasses whose fields hold valid values of that subclass's
    declaration.  A chain may so hold instances of the variants, and a
    [Quote] in it a chain of its own, to any depth.  The test of the fields
    is [fields_admit], written out for the recursion. *)
Fixpoint admits (v : pyobj) (t : type_) {struct v} : bool :=
  match v, t with
  | PStr _, T_str => true
  | PInt _, T_int => true
  | PDatetime _, T_datetime => true
  | PStr s, T_enum _ members => existsb (String.eqb s) members
  | PModel c d, T_model cls _ =>
      issubclass c cls
      && match find_class c classes with
         | Some t' =>
             (fix go (d : list (string * pyobj)) (fs : list (FieldInfo * type_)) : bool :=
                match d, fs with
                | [], [] => true
                | kx :: d', f :: fs' =>
                    String.eqb (fst kx) (name (fst f))
                    && match snd kx with
                       | PNone => allow_none (fst f)
                       | PList items =>
                           match field_shape (fst f) with
                           | SHAPE_SINGLETON => admits (snd kx) (snd f)
                           | SHAPE_LIST => forallb (fun i => admits i (snd f)) items
                           end
                       | _ =>
                           match field_shape (fst f) with
                           | SHAPE_SINGLETON => admits (snd kx) (snd f)
                           | SHAPE_LIST => false
                           end
                       end
                    && go d' fs'
                | _, _ => false
                end) d (class_fields t')
         | None => false
         end
  | _, _ => false
  end.

(** A value that decoding can give: as [admits], but an instance is of the
    very class of the annotation, so that every element of a chain is an
    instance of the base class.  The test of the fields is [fields_conform],
    written out for the recursion. *)
Fixpoint conforms (t : type_) (v : pyobj) {struct t} : bool :=
  match t, v with
  | T_str, PStr _ => true
  | T_int, PInt _ => true
  | T_datetime, PDatetime _ => true
  | T_enum _ members, PStr s => existsb (String.eqb s) members
  | T_model cls fields, PModel c d =>
      String.eqb c cls
      && (fix go (fs : list (FieldInfo * type_)) (d : list (string * pyobj)) : bool :=
            match fs, d with
            | [], [] => true
            | f :: fs', kx :: d' =>
                String.eqb (fst kx) (name (fst f))
                && match snd kx with
                   | PNone => allow_none (fst f)
                   | PList items =>
                       match field_shape (fst f) with
                       | SHAPE_SINGLETON => conforms (snd f) (snd kx)
                       | SHAPE_LIST => forallb (conforms (snd f)) items
                       end
                   | _ =>
                       match field_shape (fst f) with
                       | SHAPE_SINGLETON => conforms (snd f) (snd kx)
                       | SHAPE_LIST => false
                       end
                   end
                && go fs' d'
            | _, _ => false
            end) fields d
  | _, _ => false
  end.

(** No field of the class is named or aliased [__root__]. *)
Definition no_root (t : type_) : bool :=
  forallb (fun f => negb (String.eqb (name (fst f)) "__root__")
                    && negb (String.eqb (alias (fst f)) "__root__"))
          (class_fields t).

(** The values a field may hold and the [__dict__] of an instance, for
    [conforms]. *)
Definition field_conforms (c : type_ -> pyobj -> bool) (f : FieldInfo * type_) (x : pyobj)
    : bool :=
  match x with
  | PNone => allow_none (fst f)
  | PList items =>
      match field_shape (fst f) with
      | SHAPE_SINGLETON => c (snd f) x
      | SHAPE_LIST => forallb (c (snd f)) items
      end
  | _ =>
      match field_shape (fst f) with
      | SHAPE_SINGLETON => c (snd f) x
      | SHAPE_LIST => false
      end
  end.

Definition fields_conform (c : type_ -> pyobj -> bool)
    : list (FieldInfo * type_) -> list (string * pyobj) -> bool :=
  fix go fs d :=
    match fs, d with
    | [], [] => true
    | f :: fs', kx :: d' =>
        String.eqb (fst kx) (name (fst f)) && field_conforms c f (snd kx) && go fs' d'
    | _, _ => false
    end.

Fixpoint distinct (l : list string) : bool :=
  match l with
  | [] => true
  | x :: rest => negb (existsb (String.eqb x) rest) && distinct rest
  end.

(** What the declarations of the module satisfy, here and in the classes
    their fields refer to: the aliases of a class are distinct and none is
    [__pydantic_self__], the table of classes has the class under its name,
    and [__root__] is either the name and alias of the only field, a
    required list, or of no field at all. *)
Fixpoint well_formed (t : type_) : bool :=
  match t with
  | T_model cls fields =>
      distinct ("__pydantic_self__" :: map (fun f => alias (fst f)) fields)
      && forallb (fun f => String.eqb (dict_key true cls (name (fst f))) (alias (fst f)))
                 fields
      && (if existsb (fun f => String.eqb (name (fst f)) "__root__") fields
          then match fields with
               | [f] => String.eqb (alias (fst f)) "__root__"
                        && negb (allow_none (fst f))
                        && match field_shape (fst f) with
                           | SHAPE_LIST => true
                           | SHAPE_SINGLETON => false
                           end
               | _ => false
               end
          else forallb (fun f => negb (String.eqb (alias (fst f)) "__root__")) fields)
      && forallb (fun f => well_formed (snd f)) fields
  | _ => true
  end.

(** The keywords an instance is written to, by alias. *)
Definition written (fs : list (FieldInfo * type_)) (d : list (string * pyobj))
    : list (string * pyobj) :=
  map (fun p => (alias (fst (fst p)), get_value true (snd (snd p)))) (combine fs d).

(** The default of every optional field is a value the field may hold,
    here and in the classes the fields refer to. *)
Fixpoint defaults_conform (t : type_) : bool :=
  match t with
  | T_model _ fields =>
      forallb (fun f => (required (fst f) || field_conforms conforms f (default (fst f)))
                        && defaults_conform (snd f))
              fields
  | _ => true
  end.

(** ** Example values *)

Definition Plain_hi : pyobj := PModel "Plain" [("type", PStr "Plain"); ("text", PStr "hi")].

Definition Plain_hi_payload : pyobj := PDict [("type", PStr "Plain"); ("text", PStr "hi")].

Definition AtAll_payload : pyobj := PDict [("type", PStr "AtAll")].

(** A [Quote] whose origin holds bare elements, as decoding gives it. *)
Definition Quote_decoded : pyobj :=
  PModel "Quote"
    [("type", PStr "Quote"); ("id", PInt 1); ("groupId", PInt 0); ("senderId", PInt 2);
     ("targetId", PInt 3); ("origin", chain_of [base_element "Plain"])].

(** A [Quote] built by a program: its origin holds a [Quote] whose origin
    holds a [Plain]. *)
Definition Quote_nested : pyobj :=
  PModel "Quote"
    [("type", PStr "Quote"); ("id", PInt 1); ("groupId", PInt 0); ("senderId", PInt 2);
     ("targetId", PInt 3);
     ("origin",
      chain_of
        [PModel "Quote"
           [("type", PStr "Quote"); ("id", PInt 4); ("groupId", PInt 0);
            ("senderId", PInt 5); ("targetId", PInt 6);
            ("origin", chain_of [Plain_hi])]])].

(** The text of the JSON document with the one member [a] equal to 1. *)
Definition json_text : string :=
  String "{" (String "034" (String "a" (String "034" (String ":" (String "1"
    (String "}" EmptyString)))))).

(** ** More about the declarations *)

(** Every class but [MessageChain]: the classes that keep the [__init__] of
    [BaseModel] and read a payload by its keys. *)
Definition records : list type_ :=
  Element :: MultimediaElement :: ForwardNode :: variants.

(** The error lines for the required fields of a class, one missing-field
    line for each, in declaration order. *)
Definition missing_lines (fields : list (FieldInfo * type_)) : list ErrorWrapper :=
  map (fun f => ([LKey (alias (fst f))], MissingError))
      (filter (fun f => required (fst f)) fields).

(** The optional fields of a class with their defaults, in declaration
    order. *)
Definition defaults_of (fields : list (FieldInfo * type_)) : list (string * pyobj) :=
  map (fun f => (name (fst f), default (fst f)))
      (filter (fun f => negb (required (fst f))) fields).

(** Whether a class reads the key [k] of a payload. *)
Definition reads (t : type_) (k : string) : bool :=
  existsb (fun f => String.eqb (alias (fst f)) k) (class_fields t).

(** Every field is read and written under its own name, in the class and
    in the classes its fields refer to. *)
Fixpoint aliases_are_names (t : type_) : bool :=
  match t with
  | T_model _ fields =>
      forallb (fun f => String.eqb (alias (fst f)) (name (fst f))
                        && aliases_are_names (snd f))
              fields
  | _ => true
  end.


(** The result of a constructor call as the outcome of the validator that
    made the call. *)
Definition raised (r : result) : outcome :=
  match r with
  | Ok v => Valid v
  | ValidationError _ errors => Invalid errors
  | TypeError => raise PyTypeError
  end.

(** A [MusicShare] with the six optional texts left out. *)
Definition MusicShare_of (ty kind : string) : pyobj :=
  PModel "MusicShare"
    [("type", PStr ty); ("kind", PStr kind); ("title", PNone); ("summary", PNone);
     ("jumpUrl", PNone); ("pictureUrl", PNone); ("musicUrl", PNone); ("brief", PNone)].

(** A [ForwardNode] as a payload and as decoding gives it. *)
Definition node_payload : pyobj :=
  PDict [("senderId", PInt 7); ("time", PDatetime (mk_datetime 2022 1 2 3 4 5 0 None));
         ("senderName", PStr "n"); ("messageChain", PList [Plain_hi_payload])].

Definition node_decoded : pyobj :=
  PModel "ForwardNode"
    [("senderId", PInt 7); ("time", PDatetime (mk_datetime 2022 1 2 3 4 5 0 None));
     ("senderName", PStr "n"); ("messageChain", chain_of [base_element "Plain"]);
     ("messageId", PNone)].

(** The [type] an element holds. *)
Definition type_of (e : pyobj) : string :=
  match e with
  | PModel _ d =>
      match get "type" d with
      | Some (PStr s) => s
      | _ => "Unknown"
      end
  | _ => "Unknown"
  end.

(** ** Properties *)

Lemma get_cons_eq {A} k (v : A) d : get k ((k, v) :: d) = Some v.
Proof. simpl. now rewrite String.eqb_refl. Qed.

Lemma relocate_nil_iff loc es : relocate loc es = [] <-> es = [].
Proof. unfold relocate. destruct es; simpl; split; intros H; (reflexivity || discriminate). Qed.

Section Properties.

Variable py : Builtins.

(** *** The base class as a validator *)

Lemma str_validator_valid v w :
  str_validator py v = Valid w -> exists s, w = PStr s.
Proof.
  destruct v; simpl; try discriminate.
  - intros [= <-]; eauto.
  - destruct (str_of_int py n); [intros [= <-]; eauto | discriminate].
  - intros [= <-]; eauto.
Qed.

Lemma str_validator_invalid v es :
  str_validator py v = Invalid es -> es <> [].
Proof.
  destruct v; simpl; try (intros [= <-]; discriminate); try discriminate.
  destruct (str_of_int py n); [discriminate | intros [= <-]; discriminate].
Qed.

(** The constructor of [Element] on keywords: [type] is read when it is
    there, anything else is dropped, but for the keyword that cannot be
    bound. *)
Lemma Element_init kw :
  construct py Element kw =
  match get "__pydantic_self__" kw with
  | Some _ => TypeError
  | None =>
      match get "type" kw with
      | None => Ok (base_element "Unknown")
      | Some PNone => ValidationError "Element" [([LKey "type"], NoneIsNotAllowedError)]
      | Some v =>
          match str_validator py v with
          | Valid w => Ok (PModel "Element" [("type", w)])
          | Invalid es => ValidationError "Element" (relocate [LKey "type"] es)
          end
      end
  end.
Proof.
  unfold construct, init. simpl.
  destruct (get "__pydantic_self__" kw); [reflexivity|].
  destruct (get "type" kw) as [v|]; [|reflexivity].
  destruct v; simpl; try reflexivity.
  destruct (str_of_int py n); reflexivity.
Qed.

Lemma Element_validate_unfold v :
  validate py Element v =
  if isinstance v "Element" then Valid v
  else
    match as_keywords v with
    | Kwargs kw =>
        match construct py Element kw with
        | Ok e => Valid e
        | ValidationError _ es => Invalid es
        | TypeError => raise PyTypeError
        end
    | NotADict => raise DictError
    | NonStrKeywords => raise PyTypeError
    end.
Proof. reflexivity. Qed.

Lemma Element_validate_keywords v kw :
  isinstance v "Element" = false ->
  as_keywords v = Kwargs kw ->
  validate py Element v =
  match construct py Element kw with
  | Ok e => Valid e
  | ValidationError _ es => Invalid es
  | TypeError => raise PyTypeError
  end.
Proof.
  intros Hi Hk. rewrite Element_validate_unfold, Hi, Hk. reflexivity.
Qed.

Lemma Element_validate_dict kw :
  validate py Element (PDict kw) =
  match construct py Element kw with
  | Ok e => Valid e
  | ValidationError _ es => Invalid es
  | TypeError => raise PyTypeError
  end.
Proof. apply Element_validate_keywords; reflexivity. Qed.

(** Whatever is not already an instance comes out of the base class as a
    bare [Element]. *)
Lemma Element_validate_base v e :
  isinstance v "Element" = false ->
  validate py Element v = Valid e ->
  exists t, e = base_element t.
Proof.
  intros Hi. rewrite Element_validate_unfold, Hi.
  destruct (as_keywords v) as [kw| |]; try discriminate.
  rewrite Element_init.
  destruct (get "__pydantic_self__" kw); [discriminate|].
  destruct (get "type" kw) as [x|]; [|intros [= <-]; eexists; reflexivity].
  destruct x; try discriminate;
    match goal with
    | |- context [str_validator py ?x] =>
        destruct (str_validator py x) as [w|es] eqn:Hs;
        [apply str_validator_valid in Hs as [s' ->]; intros [= <-]; eexists; reflexivity
        | discriminate]
    end.
Qed.

Lemma Element_validate_errors v es :
  validate py Element v = Invalid es -> es <> [].
Proof.
  rewrite Element_validate_unfold.
  destruct (isinstance v "Element"); [discriminate|].
  destruct (as_keywords v) as [kw| |]; try (intros [= <-]; discriminate).
  rewrite Element_init.
  destruct (get "__pydantic_self__" kw); [intros [= <-]; discriminate|].
  destruct (get "type" kw) as [x|]; [|discriminate].
  destruct x; try (intros [= <-]; discriminate);
    match goal with
    | |- context [str_validator py ?x] =>
        destruct (str_validator py x) as [w|es'] eqn:Hs;
        [discriminate
        | apply str_validator_invalid in Hs; intros [= <-];
          now rewrite relocate_nil_iff]
    end.
Qed.

Lemma validate_item_errors (val : validator) v es :
  (forall x ee, val x = Invalid ee -> ee <> []) ->
  validate_item val v = Invalid es -> es <> [].
Proof.
  intros H. destruct v; try apply H. intros [= <-]. discriminate.
Qed.

Lemma validate_item_valid (val : validator) v w :
  validate_item val v = Valid w -> val v = Valid w /\ v <> PNone.
Proof. destruct v; try discriminate; intros H; (split; [exact H | discriminate]). Qed.

Lemma validate_item_some (val : validator) v :
  v <> PNone -> validate_item val v = val v.
Proof. destruct v; try reflexivity. contradiction. Qed.

Lemma Element_parse_obj_dict kw :
  parse_obj py Element (PDict kw) = construct py Element kw.
Proof. reflexivity. Qed.

(** *** The chain container *)

Lemma validate_sequence_like_valid val loc items :
  (forall v es, val v = Invalid es -> es <> []) ->
  forall i result,
    validate_sequence_like val loc i items = (result, []) ->
    Forall2 (fun v r => val v = Valid r) items result.
Proof.
  intros Hne. induction items as [|v rest IH]; intros i result; simpl.
  - intros [= <-]. constructor.
  - destruct (validate_sequence_like val loc (S i) rest) as [r e] eqn:Hrest.
    destruct (validate_item val v) as [w|ee] eqn:Hv.
    + intros [= <- ->]. apply validate_item_valid in Hv as [Hv _].
      constructor; [assumption | eapply IH; eassumption].
    + intros [= _ He]. apply app_eq_nil in He as [He _].
      apply relocate_nil_iff in He. now apply (validate_item_errors val v ee Hne) in Hv.
Qed.

Lemma validate_sequence_like_first_failure val loc pre v post ee :
  Forall (fun p => exists e, validate_item val p = Valid e) pre ->
  validate_item val v = Invalid ee ->
  forall i,
    snd (validate_sequence_like val loc i (pre ++ v :: post)) =
    relocate (loc ++ [LIdx (i + List.length pre)]) ee
    ++ snd (validate_sequence_like val loc (S (i + List.length pre)) post).
Proof.
  intros Hpre Hv. induction Hpre as [|p pre [e Hp] _ IH]; intros i;
    cbn [app validate_sequence_like List.length].
  - rewrite Nat.add_0_r, Hv.
    destruct (validate_sequence_like val loc (S i) post); reflexivity.
  - specialize (IH (S i)).
    destruct (validate_sequence_like val loc (S i) (pre ++ v :: post)) as [r es].
    rewrite Hp. cbn [snd] in *. rewrite IH.
    now replace (i + S (List.length pre)) with (S (i + List.length pre)) by lia.
Qed.

(** The constructor of a class whose only field is a required list under
    [__root__]. *)
Lemma init_root_list cls val items :
  init cls [(fst (req_list "__root__" Element), val)] [("__root__", PList items)] =
  match validate_sequence_like val [LKey "__root__"] 0 items with
  | (result, []) => Ok (PModel cls [("__root__", PList result)])
  | (_, errors) => ValidationError cls errors
  end.
Proof.
  unfold init. simpl.
  destruct (validate_sequence_like val [LKey "__root__"] 0 items) as [r [|e es]];
    simpl; [reflexivity | now rewrite app_nil_r].
Qed.

Lemma MessageChain_init_list items :
  MessageChain_init py (PList items) =
  match validate_sequence_like (validate py Element) [LKey "__root__"] 0 items with
  | (result, []) => Ok (chain_of result)
  | (_, errors) => ValidationError "MessageChain" errors
  end.
Proof. exact (init_root_list "MessageChain" (validate py Element) items). Qed.

Lemma MessageChain_init_ok items c :
  MessageChain_init py (PList items) = Ok c ->
  exists elements,
    c = chain_of elements
    /\ Forall2 (fun p e => validate py Element p = Valid e) items elements.
Proof.
  rewrite MessageChain_init_list.
  destruct (validate_sequence_like _ _ _ _) as [r [|e es]] eqn:Hs; [|discriminate].
  intros [= <-]. exists r. split; [reflexivity|].
  eapply validate_sequence_like_valid; [|eassumption].
  apply Element_validate_errors.
Qed.

(** *** C2 *)

(** C2 (as the code has it).  The base class is the only decoder of a
    tagged object that does not know the variant beforehand, and it has no
    notion of an unknown kind: an object without [type] decodes to an
    [Element] whose type is the default ["Unknown"], and an object whose
    [type] is any string, one of the tags or not, decodes to an [Element]
    holding that string.  The one key that makes the call itself fail is
    [__pydantic_self__]: with it [parse_obj] raises a [TypeError] and the
    validator gives a type-error line, whatever [type] is. *)
Theorem Element_decode_any_tag :
  forall (kw : list (string * pyobj)) (t : string),
    (get "type" kw = None /\ t = "Unknown") \/ get "type" kw = Some (PStr t) ->
    (get "__pydantic_self__" kw = None ->
     parse_obj py Element (PDict kw) = Ok (base_element t)
     /\ validate py Element (PDict kw) = Valid (base_element t))
    /\ (get "__pydantic_self__" kw <> None ->
        parse_obj py Element (PDict kw) = TypeError
        /\ validate py Element (PDict kw) = Invalid [([], PyTypeError)]).
Proof.
  intros kw t H.
  rewrite Element_validate_dict, Element_parse_obj_dict, Element_init.
  split.
  - intros ->. destruct H as [[-> ->] | ->]; split; reflexivity.
  - intros Hs. destruct (get "__pydantic_self__" kw); [|contradiction].
    split; reflexivity.
Qed.

(** *** C3 *)

(** C3.  A sequence of tagged payloads that the chain container decodes
    comes out as bare [Element] instances, one per payload: each holds the
    single field [type], equal to ["Unknown"] when the payload has no
    [type] and to the payload's [type] string otherwise; the other keys of
    the payload are gone and no payload becomes an instance of a variant. *)
Theorem MessageChain_decodes_to_base_elements :
  forall (payloads : list (list (string * pyobj))) (c : pyobj),
    MessageChain_init py (PList (map PDict payloads)) = Ok c ->
    exists tags : list string,
      c = chain_of (map base_element tags)
      /\ Forall2
           (fun kw t =>
              (get "type" kw = None -> t = "Unknown")
              /\ (forall s, get "type" kw = Some (PStr s) -> t = s))
           payloads tags.
Proof.
  intros payloads c H.
  apply MessageChain_init_ok in H as (elements & -> & HF).
  revert elements HF.
  induction payloads as [|kw rest IH]; intros elements HF; inversion HF; subst.
  - exists []. split; [reflexivity | constructor].
  - destruct (IH _ H3) as (tags & Heq & HT).
    destruct (Element_validate_base (PDict kw) y eq_refl H1) as [t ->].
    exists (t :: tags). split.
    + unfold chain_of in *. simpl. now injection Heq as ->.
    + constructor; [|assumption].
      rewrite Element_validate_dict, Element_init in H1.
      destruct (get "__pydantic_self__" kw); [discriminate|].
      split.
      * intros Hn. rewrite Hn in H1. now injection H1 as <-.
      * intros s Hs. rewrite Hs in H1. now injection H1 as <-.
Qed.

(** *** C7 *)

Lemma first_failure (val : validator) items :
  Exists (fun p => exists es, val p = Invalid es) items ->
  exists pre v post ee,
    items = pre ++ v :: post
    /\ Forall (fun p => exists e, val p = Valid e) pre
    /\ val v = Invalid ee.
Proof.
  induction items as [|x items IH]; intros H; [inversion H|].
  destruct (val x) as [e|es] eqn:Hx.
  - assert (Hrest : Exists (fun p => exists es, val p = Invalid es) items).
    { inversion H as [? ? [es' Hes]|]; subst; [congruence | assumption]. }
    destruct (IH Hrest) as (pre & v & post & ee & -> & Hpre & Hv).
    exists (x :: pre), v, post, ee. repeat split; try assumption.
    constructor; [now exists e | assumption].
  - exists [], x, items, es. repeat split; [constructor | assumption].
Qed.

(** C7 (as the code has it).  The decoding of a chain is atomic but not
    fail-fast.  An element of the sequence is decoded by the sub-field of
    the items, [validate_item] of the base class: [None] gets a
    none-not-allowed line, anything else the lines of the base class.  If
    any element fails, the constructor raises one [ValidationError] and
    gives no chain; with [pre] the elements before the first that fails, the
    error starts with the lines of that element, under its index, and goes
    on with the lines of every later element that fails. *)
Theorem MessageChain_decode_reports_all_failures :
  forall items : list pyobj,
    Exists (fun p => exists es, validate_item (validate py Element) p = Invalid es) items ->
    exists (pre : list pyobj) (v : pyobj) (post : list pyobj) (ee : list ErrorWrapper),
      items = pre ++ v :: post
      /\ Forall (fun p => exists e, validate_item (validate py Element) p = Valid e) pre
      /\ validate_item (validate py Element) v = Invalid ee
      /\ ee <> []
      /\ MessageChain_init py (PList items) =
         ValidationError "MessageChain"
           (relocate [LKey "__root__"; LIdx (List.length pre)] ee
            ++ snd (validate_sequence_like (validate py Element) [LKey "__root__"]
                      (S (List.length pre)) post)).
Proof.
  intros items Hex.
  destruct (first_failure (validate_item (validate py Element)) items Hex)
    as (pre & v & post & ee & -> & Hpre & Hv).
  pose proof (validate_item_errors _ _ _ Element_validate_errors Hv) as Hne.
  exists pre, v, post, ee. repeat split; try assumption.
  rewrite MessageChain_init_list.
  pose proof (validate_sequence_like_first_failure
                (validate py Element) [LKey "__root__"] pre v post ee Hpre Hv 0) as H.
  change (0 + List.length pre) with (List.length pre) in H.
  destruct (validate_sequence_like (validate py Element) [LKey "__root__"] 0
              (pre ++ v :: post)) as [r es].
  cbn [snd] in H. subst es.
  destruct ee as [|e ee]; [contradiction|]. reflexivity.
Qed.

(** *** C8 *)

(** C8 (as the code has it).  A sequence that decodes gives a chain with
    one element per payload, in the order of the payloads, each the base
    class's reading of its payload; the encoding of the chain writes the
    encodings of these elements in the same order. *)
Theorem MessageChain_keeps_order :
  forall (items : list pyobj) (c : pyobj),
    MessageChain_init py (PList items) = Ok c ->
    exists elements : list pyobj,
      c = chain_of elements
      /\ Forall2 (fun p e => validate py Element p = Valid e) items elements
      /\ forall by_alias,
           dict_ by_alias c
           = Some (PDict [("__root__", PList (map (get_value by_alias) elements))]).
Proof.
  intros items c H.
  apply MessageChain_init_ok in H as (elements & -> & HF).
  exists elements. repeat split; try assumption.
  intros []; reflexivity.
Qed.

(** *** Fields of a model *)


Lemma validate_model_invalid fields kw f v es :
  In f fields ->
  get (alias (fst f)) kw = Some v ->
  ModelField_validate f v = Invalid es ->
  incl es (snd (validate_model fields kw)).
Proof.
  intros Hin Hget Hv. induction fields as [|g rest IH]; [contradiction|].
  simpl. destruct (validate_model rest kw) as [values errors].
  destruct Hin as [-> | Hin].
  - rewrite Hget, Hv. simpl. now apply incl_appl, incl_refl.
  - specialize (IH Hin). simpl in IH.
    destruct (get (alias (fst g)) kw) as [x|].
    + destruct (ModelField_validate g x); simpl; [assumption|].
      now apply incl_appr.
    + destruct (required (fst g)); simpl; [now apply incl_tl | assumption].
Qed.

Lemma validate_model_valid fields kw f v w :
  In f fields ->
  get (alias (fst f)) kw = Some v ->
  ModelField_validate f v = Valid w ->
  In (name (fst f), w) (fst (validate_model fields kw)).
Proof.
  intros Hin Hget Hv. induction fields as [|g rest IH]; [contradiction|].
  simpl. destruct (validate_model rest kw) as [values errors].
  destruct Hin as [-> | Hin].
  - rewrite Hget, Hv. now left.
  - specialize (IH Hin). simpl in IH.
    destruct (get (alias (fst g)) kw) as [x|].
    + destruct (ModelField_validate g x); simpl; [now right | assumption].
    + destruct (required (fst g)); simpl; [assumption | now right].
Qed.

Lemma init_ok cls fields kw r :
  init cls fields kw = Ok r ->
  r = PModel cls (fst (validate_model fields kw)).
Proof.
  unfold init. destruct (get "__pydantic_self__" kw); [discriminate|].
  destruct (validate_model fields kw) as [values [|e es]]; simpl.
  - now intros [= <-].
  - discriminate.
Qed.

Lemma init_fails cls fields kw e :
  get "__pydantic_self__" kw = None ->
  In e (snd (validate_model fields kw)) ->
  init cls fields kw = ValidationError cls (snd (validate_model fields kw)).
Proof.
  unfold init. intros ->. destruct (validate_model fields kw) as [values [|e' es]]; simpl.
  - contradiction.
  - reflexivity.
Qed.

(** A class without a [__root__] field takes a dict as its keywords. *)
Lemma parse_obj_dict t kw :
  custom_root (model_fields py t) = false ->
  parse_obj py t (PDict kw) = construct py t kw.
Proof.
  intros H. unfold parse_obj, BaseModel_parse_obj, enforce_dict_if_root.
  now rewrite H.
Qed.

Lemma variants_shape t :
  In t variants ->
  custom_root (model_fields py t) = false
  /\ exists rest, class_fields t = tag (class_name t) :: rest.
Proof.
  unfold variants. simpl.
  intros H; repeat (destruct H as [<- | H]; [split; [reflexivity | eexists; reflexivity]|]);
    contradiction.
Qed.

Lemma validate_invalid_nonempty t v es :
  validate py t v = Invalid es -> es <> [].
Proof.
  destruct t; simpl.
  - apply str_validator_invalid.
  - destruct v; simpl; try (intros [= <-]; discriminate); try discriminate.
    destruct (int_of_str py s); [discriminate | intros [= <-]; discriminate].
  - destruct v; simpl; try (intros [= <-]; discriminate); try discriminate.
    + destruct (datetime_of_int py _); [discriminate | intros [= <-]; discriminate].
    + destruct (datetime_of_int py n); [discriminate | intros [= <-]; discriminate].
    + destruct (datetime_of_str py s); [discriminate | intros [= <-]; discriminate].
  - destruct v; simpl; try (intros [= <-]; discriminate).
    destruct (existsb _ _); [discriminate | intros [= <-]; discriminate].
  - unfold Model_validate. destruct (isinstance v cls); [discriminate|].
    destruct (as_keywords _); try (intros [= <-]; discriminate).
    unfold init. destruct (get "__pydantic_self__" kw); [intros [= <-]; discriminate|].
    destruct (validate_model _ kw) as [values [|e errors]].
    + discriminate.
    + intros [= <-]; discriminate.
Qed.

Lemma ModelField_validate_invalid_nonempty info t v es :
  ModelField_validate (info, validate py t) v = Invalid es -> es <> [].
Proof.
  unfold ModelField_validate. cbn [fst snd].
  assert (Hs : forall x, at_loc [LKey (alias info)] (validate py t x) = Invalid es -> es <> []).
  { intros x. destruct (validate py t x) eqn:Hx; simpl; [discriminate|].
    intros [= <-]. apply validate_invalid_nonempty in Hx.
    now rewrite relocate_nil_iff. }
  destruct v; try (destruct (field_shape info); [apply Hs | intros [= <-]; discriminate]).
  - destruct (allow_none info); [discriminate | intros [= <-]; discriminate].
  - destruct (field_shape info); [apply Hs|].
    destruct (validate_sequence_like _ _ _ _) as [r [|e errors]]; [discriminate|].
    intros [= <-]; discriminate.
Qed.


(** *** C4 *)

(** C4 (as the code has it).  The enumerated field of [Poke] is declared
    under the name [name]: a payload that gives it a member of
    [PokeMethods] decodes, a payload that gives it any other string fails
    with an enum error at [name]; the enumeration has 16 distinct members,
    among them ["DianZan"] and not ["NotARealMethod"].  (The payload is one
    the class can be called on: it has no key [__pydantic_self__].) *)
Theorem Poke_name_accepts_the_members :
  forall (kw : list (string * pyobj)) (ty s : string),
    get "__pydantic_self__" kw = None ->
    get "type" kw = Some (PStr ty) ->
    get "name" kw = Some (PStr s) ->
    (In s PokeMethods ->
     parse_obj py Poke (PDict kw)
     = Ok (PModel "Poke" [("type", PStr ty); ("name", PStr s)]))
    /\ (~ In s PokeMethods ->
        parse_obj py Poke (PDict kw)
        = ValidationError "Poke" [([LKey "name"], EnumMemberError)])
    /\ List.length PokeMethods = 16
    /\ NoDup PokeMethods
    /\ In "DianZan" PokeMethods
    /\ ~ In "NotARealMethod" PokeMethods.
Proof.
  intros kw ty s Hself Hty Hname.
  assert (Hp : parse_obj py Poke (PDict kw) =
               if existsb (String.eqb s) PokeMethods
               then Ok (PModel "Poke" [("type", PStr ty); ("name", PStr s)])
               else ValidationError "Poke" [([LKey "name"], EnumMemberError)]).
  { rewrite (parse_obj_dict Poke kw eq_refl).
    unfold construct, init. rewrite Hself. cbn -[existsb PokeMethods].
    rewrite Hty, Hname. cbn -[existsb PokeMethods].
    destruct (existsb (String.eqb s) PokeMethods); reflexivity. }
  repeat split.
  - intros Hin. rewrite Hp.
    assert (H : existsb (String.eqb s) PokeMethods = true).
    { apply existsb_exists. exists s. split; [assumption | apply String.eqb_refl]. }
    now rewrite H.
  - intros Hnot. rewrite Hp.
    destruct (existsb (String.eqb s) PokeMethods) eqn:H; [|reflexivity].
    apply existsb_exists in H as (x & Hx & Heq).
    apply String.eqb_eq in Heq. subst x. contradiction.
  - unfold PokeMethods.
    repeat (constructor;
            [simpl; intros H; repeat (destruct H as [H | H]; [discriminate|]);
             contradiction|]).
    constructor.
  - simpl. tauto.
  - simpl. intros H.
    repeat (destruct H as [H | H]; [discriminate|]). contradiction.
Qed.

(** *** C5 *)

(** C5 (as the code has it).  The content of a [Json] element is read from
    the key [json] of the wire object, tagged with a [type] or not; a key
    [Json] of the wire object is not read.  The encoding writes the content
    under [json] when it is asked to write aliases; the encoding as [dict]
    is called without arguments writes it under the name of the field,
    [Json].  (The wire object is one the class can be called on: it has no
    key [__pydantic_self__].) *)
Theorem Json_reads_alias_and_writes_it_by_alias :
  forall (kw : list (string * pyobj)) (ty s : string),
    get "__pydantic_self__" kw = None ->
    (get "type" kw = None /\ ty = "Json") \/ get "type" kw = Some (PStr ty) ->
    get "json" kw = Some (PStr s) ->
    parse_obj py Json (PDict kw) = Ok (PModel "Json" [("type", PStr ty); ("Json", PStr s)])
    /\ dict_ true (PModel "Json" [("type", PStr ty); ("Json", PStr s)])
       = Some (PDict [("type", PStr ty); ("json", PStr s)])
    /\ dict_ false (PModel "Json" [("type", PStr ty); ("Json", PStr s)])
       = Some (PDict [("type", PStr ty); ("Json", PStr s)]).
Proof.
  intros kw ty s Hself Hty Hjson. repeat split.
  rewrite (parse_obj_dict Json kw eq_refl).
  unfold construct, init. rewrite Hself. cbn.
  destruct Hty as [[-> ->] | ->]; rewrite Hjson; reflexivity.
Qed.

(** *** C6 *)


(** *** C9 *)

(** C9 (as the code has it).  [type] is an ordinary field of every
    variant, with the name of the variant as its default: a payload without
    [type] decodes to an instance whose [type] is the variant's tag, and a
    payload with a [type] string decodes to an instance holding that
    string, whatever it is. *)
Theorem variant_type_defaults_to_its_tag :
  forall (t : type_) (kw : list (string * pyobj)) (v : pyobj),
    In t variants ->
    parse_obj py t (PDict kw) = Ok v ->
    exists d,
      v = PModel (class_name t) d
      /\ (get "type" kw = None -> get "type" d = Some (PStr (class_name t)))
      /\ (forall s, get "type" kw = Some (PStr s) -> get "type" d = Some (PStr s)).
Proof.
  intros t kw v Ht.
  destruct (variants_shape t Ht) as [Hroot [rest Hfields]].
  rewrite (parse_obj_dict t kw Hroot). unfold construct, init, model_fields.
  destruct (get "__pydantic_self__" kw); [discriminate|].
  rewrite Hfields. cbn [map validate_model fst snd tag alias name required default].
  destruct (validate_model _ kw) as [values errors].
  destruct (get "type" kw) as [x|].
  - destruct (ModelField_validate _ x) as [w|es] eqn:Hx.
    + destruct errors; [|discriminate]. intros [= <-].
      eexists. split; [reflexivity|]. split; [discriminate|].
      intros s [= ->]. simpl in Hx. injection Hx as <-. reflexivity.
    + apply (ModelField_validate_invalid_nonempty _ T_str) in Hx.
      destruct es; [contradiction | discriminate].
  - cbn. destruct errors; [|discriminate]. intros [= <-].
    eexists. split; [reflexivity|]. split; [reflexivity | discriminate].
Qed.

(** *** Induction over nested values *)

Lemma pyobj_nested_ind (P : pyobj -> Prop) :
  P PNone ->
  (forall b, P (PBool b)) ->
  (forall n, P (PInt n)) ->
  (forall s, P (PStr s)) ->
  (forall d, P (PDatetime d)) ->
  (forall items, Forall P items -> P (PList items)) ->
  (forall items, Forall (fun kv => P (snd kv)) items -> P (PDict items)) ->
  (forall cls d, Forall (fun kv => P (snd kv)) d -> P (PModel cls d)) ->
  forall v, P v.
Proof.
  intros HNone HBool HInt HStr HDt HList HDict HModel.
  refine (fix IH (v : pyobj) : P v :=
            match v with
            | PNone => HNone
            | PBool b => HBool b
            | PInt n => HInt n
            | PStr s => HStr s
            | PDatetime d => HDt d
            | PList items =>
                HList items
                  ((fix go (l : list pyobj) : Forall P l :=
                      match l with
                      | [] => Forall_nil _
                      | x :: r => Forall_cons x (IH x) (go r)
                      end) items)
            | PDict items =>
                HDict items
                  ((fix go (l : list (string * pyobj)) : Forall (fun kv => P (snd kv)) l :=
                      match l with
                      | [] => Forall_nil _
                      | x :: r => Forall_cons x (IH (snd x)) (go r)
                      end) items)
            | PModel cls d =>
                HModel cls d
                  ((fix go (l : list (string * pyobj)) : Forall (fun kv => P (snd kv)) l :=
                      match l with
                      | [] => Forall_nil _
                      | x :: r => Forall_cons x (IH (snd x)) (go r)
                      end) d)
            end).
Qed.

Lemma get_In {A} k (d : list (string * A)) v :
  get k d = Some v -> In v (map snd d).
Proof.
  induction d as [|[k' x] d IH]; simpl; [discriminate|].
  destruct (String.eqb k' k); [intros [= ->]; now left | right; auto].
Qed.

(** *** Valid values and their encoding *)

Lemma admits_model c d cls fs :
  admits (PModel c d) (T_model cls fs) =
  issubclass c cls
  && match find_class c classes with
     | Some t' => fields_admit admits d (class_fields t')
     | None => false
     end.
Proof. reflexivity. Qed.

Lemma admits_model_inv c d t :
  admits (PModel c d) t = true ->
  exists cls fs t',
    t = T_model cls fs /\ issubclass c cls = true
    /\ find_class c classes = Some t'
    /\ fields_admit admits d (class_fields t') = true.
Proof.
  destruct t; try discriminate.
  rewrite admits_model. intros H. apply andb_true_iff in H as [Hs H].
  destruct (find_class c classes) as [t'|]; [|discriminate].
  now exists cls, fields, t'.
Qed.

Lemma admits_as_field v t :
  admits v t = true -> field_admits admits v (req "" t) = true.
Proof. destruct v; simpl; auto; destruct t; discriminate. Qed.

Lemma get_value_plain by_alias :
  forall v f, field_admits admits v f = true -> plain (get_value by_alias v) = true.
Proof.
  induction v as [| | | | |items IH|items IH|c d IH] using pyobj_nested_ind;
    intros f; try reflexivity.
  - unfold field_admits. destruct (field_shape (fst f)).
    + destruct (snd f); discriminate.
    + intros H. simpl. rewrite forallb_forall in H. rewrite Forall_forall in IH.
      apply forallb_forall. intros y Hy. apply in_map_iff in Hy as (x & <- & Hx).
      eapply IH; [exact Hx|]. apply admits_as_field. now apply H.
  - unfold field_admits. destruct (field_shape (fst f)); [|discriminate].
    destruct (snd f); discriminate.
  - unfold field_admits. destruct (field_shape (fst f)); [|discriminate].
    intros H. apply admits_model_inv in H as (cls & fs & t' & _ & _ & _ & Hd).
    assert (Hall : Forall (fun kv => plain (snd kv) = true)
                     (map (fun kv => (dict_key by_alias c (fst kv),
                                      get_value by_alias (snd kv))) d)).
    { revert Hd. generalize (class_fields t'). clear -IH.
      induction IH as [|kx d Hkx _ IHd]; intros fs Hd; simpl; [constructor|].
      destruct fs as [|g fs]; [discriminate|].
      simpl in Hd. apply andb_true_iff in Hd as [Hd Hrest].
      apply andb_true_iff in Hd as [_ Hx].
      constructor; [exact (Hkx g Hx) | exact (IHd fs Hrest)]. }
    cbn [get_value].
    destruct (get "__root__" _) as [root|] eqn:Hroot.
    + apply get_In in Hroot. rewrite map_map in Hroot. rewrite Forall_forall in Hall.
      apply in_map_iff in Hroot as (kx & <- & Hkx).
      apply (Hall (dict_key by_alias c (fst kx), get_value by_alias (snd kx))).
      apply in_map_iff. now exists kx.
    + cbn [plain]. apply forallb_forall. now apply Forall_forall.
Qed.

Lemma Element_subclass_fields c :
  issubclass c "Element" = true ->
  exists t' dflt rest,
    find_class c classes = Some t' /\ class_fields t' = tag dflt :: rest
    /\ no_root t' = true.
Proof.
  unfold issubclass. intros H. apply orb_true_iff in H as [H | H].
  - apply String.eqb_eq in H. subst c. do 3 eexists. repeat split.
  - apply andb_true_iff in H as [_ H]. apply existsb_exists in H as (x & Hx & Heq).
    apply String.eqb_eq in Heq. subst x. simpl in Hx.
    repeat (destruct Hx as [<- | Hx]; [do 3 eexists; repeat split|]).
    contradiction.
Qed.

Lemma dict_key_not_root by_alias c t' k :
  find_class c classes = Some t' ->
  no_root t' = true ->
  In k (map (fun f => name (fst f)) (class_fields t')) ->
  dict_key by_alias c k <> "__root__".
Proof.
  intros Hc Hn Hk. unfold no_root in Hn. rewrite forallb_forall in Hn.
  assert (Hname : k <> "__root__").
  { apply in_map_iff in Hk as (f & <- & Hf). specialize (Hn f Hf).
    apply andb_true_iff in Hn as [Hn _]. apply negb_true_iff in Hn.
    now apply String.eqb_neq. }
  unfold dict_key. destruct by_alias; [|assumption]. rewrite Hc.
  destruct (find _ (class_fields t')) as [g|] eqn:Hg; [|assumption].
  apply find_some in Hg as [Hg _]. specialize (Hn g Hg).
  apply andb_true_iff in Hn as [_ Hn]. apply negb_true_iff in Hn.
  now apply String.eqb_neq.
Qed.

Lemma fields_admit_names adm d fs :
  fields_admit adm d fs = true -> map fst d = map (fun f => name (fst f)) fs.
Proof.
  revert fs. induction d as [|kx d IH]; intros [|f fs]; simpl; try discriminate.
  - reflexivity.
  - intros H. apply andb_true_iff in H as [H Hrest].
    apply andb_true_iff in H as [Hk _]. apply String.eqb_eq in Hk.
    now rewrite Hk, (IH fs Hrest).
Qed.

Lemma get_none_of_keys {A} k (d : list (string * A)) :
  (forall k', In k' (map fst d) -> k' <> k) -> get k d = None.
Proof.
  induction d as [|[k' x] d IH]; simpl; intros H; [reflexivity|].
  destruct (String.eqb k' k) eqn:E.
  - apply String.eqb_eq in E. exfalso. apply (H k'); auto.
  - apply IH. intros k'' Hk. apply H. now right.
Qed.

(** An instance of a class without [__root__] is encoded as the dict of
    its fields wherever it stands. *)
Lemma get_value_no_root by_alias c d t' :
  find_class c classes = Some t' ->
  no_root t' = true ->
  fields_admit admits d (class_fields t') = true ->
  dict_ by_alias (PModel c d) = Some (get_value by_alias (PModel c d)).
Proof.
  intros Hc Hn Hd. cbn [dict_ get_value].
  rewrite get_none_of_keys; [reflexivity|].
  intros k Hk. rewrite map_map in Hk. cbn [fst] in Hk.
  apply in_map_iff in Hk as (kx & <- & Hkx).
  eapply dict_key_not_root; try eassumption.
  rewrite <- (fields_admit_names _ _ _ Hd). now apply in_map.
Qed.

(** *** C10 *)

(** C10.  Encoding is total on valid values.  For a valid element, an
    instance of [Element] or of any subclass with valid field values,
    [dict] gives a dict of plain data that holds a [type] string; for a
    valid chain it gives the dict whose [__root__] is the list of the
    encodings of the elements, in order, again plain data.  Neither call
    can fail. *)
Theorem dict_is_total :
  forall (v : pyobj) (by_alias : bool),
    admits v Element = true \/ admits v MessageChain = true ->
    exists d,
      dict_ by_alias v = Some (PDict d)
      /\ plain (PDict d) = true
      /\ (admits v Element = true ->
          get_value by_alias v = PDict d /\ exists s, get "type" d = Some (PStr s))
      /\ (admits v MessageChain = true ->
          exists elements,
            v = chain_of elements
            /\ d = [("__root__", PList (map (get_value by_alias) elements))]
            /\ Forall (fun e => admits e Element = true) elements).
Proof.
  intros v by_alias H.
  assert (Hplain : plain (get_value by_alias v) = true).
  { destruct H as [H | H]; apply admits_as_field in H;
      eapply get_value_plain; exact H. }
  destruct v as [| | | | | | |c d0]; try (destruct H; discriminate).
  assert (HE : admits (PModel c d0) Element = true ->
               exists s tl,
                 dict_ by_alias (PModel c d0)
                 = Some (get_value by_alias (PModel c d0))
                 /\ get_value by_alias (PModel c d0) = PDict (("type", PStr s) :: tl)).
  { intros HA. apply admits_model_inv in HA as (cls & fs & t' & [= <- <-] & Hs & Hc & Hd).
    destruct (Element_subclass_fields c Hs) as (t'' & dflt & rest & Hc' & Hf & Hn).
    rewrite Hc in Hc'. injection Hc' as <-.
    pose proof (get_value_no_root by_alias c d0 t' Hc Hn Hd) as Hdict.
    rewrite Hf in Hd. destruct d0 as [|[k x] d0]; [discriminate|].
    cbn [fields_admit] in Hd. apply andb_true_iff in Hd as [Hd _].
    apply andb_true_iff in Hd as [Hk Hx]. apply String.eqb_eq in Hk. cbn in Hk. subst k.
    assert (exists s, x = PStr s) as [s ->].
    { destruct x; try discriminate. now exists s. }
    exists s. eexists. split; [exact Hdict|].
    assert (Hg : get_value by_alias (PModel c (("type", PStr s) :: d0))
                 = PDict (map (fun kv => (dict_key by_alias c (fst kv),
                                          get_value by_alias (snd kv)))
                              (("type", PStr s) :: d0)))
      by (cbn [dict_] in Hdict; congruence).
    rewrite Hg. cbn [map fst snd].
    assert (Hk : dict_key by_alias c "type" = "type").
    { unfold dict_key. destruct by_alias; [|reflexivity]. now rewrite Hc, Hf. }
    rewrite Hk. reflexivity. }
  assert (HC : admits (PModel c d0) MessageChain = true ->
               exists elements,
                 PModel c d0 = chain_of elements
                 /\ Forall (fun e => admits e Element = true) elements).
  { intros HA. apply admits_model_inv in HA as (cls & fs & t' & [= <- <-] & Hs & Hc & Hd).
    unfold issubclass in Hs. cbn in Hs. rewrite orb_false_r in Hs.
    apply String.eqb_eq in Hs. subst c. cbn in Hc. injection Hc as <-.
    cbn [class_fields MessageChain] in Hd.
    destruct d0 as [|[k x] [|? ?]]; try discriminate.
    2:{ cbn in Hd. rewrite !andb_false_r in Hd. discriminate. }
    cbn [fields_admit] in Hd. rewrite andb_true_r in Hd.
    apply andb_true_iff in Hd as [Hk Hx]. apply String.eqb_eq in Hk. cbn in Hk. subst k.
    destruct x; try discriminate. exists items. split; [reflexivity|].
    cbn in Hx. apply Forall_forall. now apply forallb_forall. }
  destruct H as [H | H].
  - destruct (HE H) as (s & tl & Hd & Hg).
    exists (("type", PStr s) :: tl). rewrite Hd, Hg. rewrite Hg in Hplain.
    repeat split; try assumption.
    + exists s. now rewrite get_cons_eq.
    + intros HA. destruct (HC HA) as (elements & [= -> ->] & _).
      cbn in H. discriminate.
  - destruct (HC H) as (elements & [= -> ->] & HF).
    exists [("__root__", PList (map (get_value by_alias) elements))].
    split; [destruct by_alias; reflexivity|].
    split.
    + assert (Hg : get_value by_alias (chain_of elements)
                   = PList (map (get_value by_alias) elements))
        by (destruct by_alias; reflexivity).
      unfold chain_of in Hg. rewrite Hg in Hplain. cbn [plain forallb snd] in *.
      now rewrite Hplain.
    + split.
      * intros HA. cbn in HA. discriminate.
      * intros _. exists elements. now repeat split.
Qed.

(** *** Induction over nested annotations *)

Lemma type_nested_ind (P : type_ -> Prop) :
  P T_str -> P T_int -> P T_datetime ->
  (forall enum members, P (T_enum enum members)) ->
  (forall cls fields, Forall (fun f => P (snd f)) fields -> P (T_model cls fields)) ->
  forall t, P t.
Proof.
  intros HStr HInt HDt HEnum HModel.
  refine (fix IH (t : type_) : P t :=
            match t with
            | T_str => HStr
            | T_int => HInt
            | T_datetime => HDt
            | T_enum enum members => HEnum enum members
            | T_model cls fields =>
                HModel cls fields
                  ((fix go (l : list (FieldInfo * type_)) : Forall (fun f => P (snd f)) l :=
                      match l with
                      | [] => Forall_nil _
                      | f :: r => Forall_cons f (IH (snd f)) (go r)
                      end) fields)
            end).
Qed.

(** *** Decoding an encoding *)

Lemma conforms_model cls fs c d :
  conforms (T_model cls fs) (PModel c d) = String.eqb c cls && fields_conform conforms fs d.
Proof. reflexivity. Qed.

Lemma distinct_not_in x l :
  existsb (String.eqb x) l = false -> ~ In x l.
Proof.
  intros H Hin. assert (existsb (String.eqb x) l = true); [|congruence].
  apply existsb_exists. exists x. split; [assumption | apply String.eqb_refl].
Qed.

Lemma written_keys fs d :
  forall k, In k (map fst (written fs d)) -> In k (map (fun f => alias (fst f)) fs).
Proof.
  unfold written. revert d. induction fs as [|f fs IH]; intros [|kx d] k; simpl; try tauto.
  intros [<- | H]; [now left | right; eauto].
Qed.

Lemma get_written fs d f kx :
  distinct (map (fun f => alias (fst f)) fs) = true ->
  In (f, kx) (combine fs d) ->
  get (alias (fst f)) (written fs d) = Some (get_value true (snd kx)).
Proof.
  revert d. induction fs as [|g fs IH]; intros [|ky d]; simpl; try tauto.
  intros Hd Hin. apply andb_true_iff in Hd as [Hg Hd]. apply negb_true_iff in Hg.
  destruct Hin as [[= <- <-] | Hin].
  - unfold written. simpl. now rewrite String.eqb_refl.
  - unfold written. simpl. fold (written fs d).
    destruct (String.eqb (alias (fst g)) (alias (fst f))) eqn:E.
    + apply String.eqb_eq in E. apply distinct_not_in in Hg. exfalso. apply Hg.
      rewrite E. apply in_map_iff. exists f. split; [reflexivity|].
      eapply in_combine_l; eassumption.
    + now apply IH.
Qed.

Lemma distinct_self_key (fs : list (FieldInfo * type_)) d :
  distinct ("__pydantic_self__" :: map (fun f => alias (fst f)) fs) = true ->
  distinct (map (fun f => alias (fst f)) fs) = true
  /\ get "__pydantic_self__" (written fs d) = None.
Proof.
  cbn [distinct]. intros H. apply andb_true_iff in H as [Hs Hd].
  split; [exact Hd|]. apply negb_true_iff in Hs.
  apply get_none_of_keys. intros k Hk Heq. subst k.
  apply written_keys in Hk. now apply distinct_not_in in Hs.
Qed.

Lemma get_value_written cls fs d :
  forallb (fun f => String.eqb (dict_key true cls (name (fst f))) (alias (fst f))) fs = true ->
  fields_conform conforms fs d = true ->
  map (fun kv => (dict_key true cls (fst kv), get_value true (snd kv))) d = written fs d.
Proof.
  unfold written. revert d. induction fs as [|f fs IH]; intros [|kx d]; simpl; try discriminate.
  - reflexivity.
  - intros Ha Hc. apply andb_true_iff in Ha as [Hf Ha].
    apply andb_true_iff in Hc as [Hc Hrest]. apply andb_true_iff in Hc as [Hk _].
    apply String.eqb_eq in Hk. apply String.eqb_eq in Hf.
    now rewrite Hk, Hf, IH.
Qed.

Lemma validate_sequence_like_roundtrip val loc items :
  Forall (fun x => validate_item val (get_value true x) = Valid x) items ->
  forall i, validate_sequence_like val loc i (map (get_value true) items) = (items, []).
Proof.
  induction 1 as [|x items Hx _ IH]; intros i; simpl; [reflexivity|].
  now rewrite IH, Hx.
Qed.

Lemma conforms_list_false t items : conforms t (PList items) = false.
Proof. destruct t; reflexivity. Qed.

Lemma custom_root_model_fields fs :
  custom_root (map (fun f => (fst f, validate py (snd f))) fs)
  = existsb (fun f => String.eqb (name (fst f)) "__root__") fs.
Proof. unfold custom_root. induction fs as [|f fs IH]; simpl; [reflexivity | now rewrite IH]. Qed.

(** How a conforming instance is written where it stands as a field value,
    and that both the validator of its class and [parse_obj] read what is
    written as the keywords [written]. *)
Lemma model_encoding cls fs d :
  well_formed (T_model cls fs) = true ->
  fields_conform conforms fs d = true ->
  let mf := map (fun f => (fst f, validate py (snd f))) fs in
  dict_ true (PModel cls d) = Some (PDict (written fs d))
  /\ isinstance (get_value true (PModel cls d)) cls = false
  /\ get_value true (PModel cls d) <> PNone
  /\ as_keywords (enforce_dict_if_root mf (get_value true (PModel cls d)))
     = Kwargs (written fs d)
  /\ as_keywords (enforce_dict_if_root mf (PDict (written fs d)))
     = Kwargs (written fs d).
Proof.
  intros Hwf Hfc mf. cbn [well_formed] in Hwf.
  apply andb_true_iff in Hwf as [Hwf _]. apply andb_true_iff in Hwf as [Hwf Hroot].
  apply andb_true_iff in Hwf as [Hdist Halias].
  cbn [dict_ get_value]. rewrite (get_value_written cls fs d Halias Hfc).
  unfold enforce_dict_if_root, mf. rewrite custom_root_model_fields.
  destruct (existsb _ fs) eqn:Hex.
  - destruct fs as [|f [|? ?]]; try discriminate.
    destruct d as [|[k x] [|? ?]]; try discriminate.
    2:{ cbn in Hfc. rewrite andb_false_r in Hfc. discriminate. }
    cbn [fields_conform] in Hfc. rewrite andb_true_r in Hfc.
    apply andb_true_iff in Hfc as [_ Hx]. cbn [snd] in Hx.
    apply andb_true_iff in Hroot as [Hroot Hshape].
    apply andb_true_iff in Hroot as [Ha Hnone].
    apply String.eqb_eq in Ha. apply negb_true_iff in Hnone.
    unfold written. cbn [combine map fst snd]. rewrite Ha.
    rewrite get_cons_eq.
    unfold field_conforms in Hx. rewrite Hnone in Hx.
    destruct (field_shape (fst f)); [discriminate|].
    destruct x; try discriminate.
    cbn [get_value]. repeat split; try reflexivity. discriminate.
  - rewrite get_none_of_keys.
    + repeat split; try reflexivity. discriminate.
    + intros k Hk Heq. subst k. apply written_keys in Hk.
      apply in_map_iff in Hk as (f & Hf & Hin).
      rewrite forallb_forall in Hroot. specialize (Hroot f Hin).
      apply negb_true_iff in Hroot. rewrite Hf in Hroot. discriminate.
Qed.

Lemma ModelField_validate_singleton (f : ModelField) v :
  v <> PNone ->
  field_shape (fst f) = SHAPE_SINGLETON ->
  ModelField_validate f v = at_loc [LKey (alias (fst f))] (snd f v).
Proof.
  intros Hv Hs. unfold ModelField_validate. rewrite Hs.
  destruct v; try reflexivity. contradiction.
Qed.

Lemma field_roundtrip (f : FieldInfo * type_) x :
  (forall v, conforms (snd f) v = true ->
             validate py (snd f) (get_value true v) = Valid v
             /\ get_value true v <> PNone) ->
  field_conforms conforms f x = true ->
  ModelField_validate (fst f, validate py (snd f)) (get_value true x) = Valid x.
Proof.
  intros IH Hx.
  assert (Hsingle : forall y, y <> PNone ->
            match field_shape (fst f) with
            | SHAPE_SINGLETON => conforms (snd f) y
            | SHAPE_LIST => false
            end = true ->
            ModelField_validate (fst f, validate py (snd f)) (get_value true y) = Valid y).
  { intros y Hy Hc. destruct (field_shape (fst f)) eqn:Hs; [|discriminate].
    destruct (IH y Hc) as [Hval Hnn].
    rewrite ModelField_validate_singleton; [|assumption|assumption].
    cbn [fst snd]. now rewrite Hval. }
  destruct x; try (apply Hsingle; [discriminate | exact Hx]).
  - unfold field_conforms in Hx. unfold ModelField_validate. cbn [get_value fst].
    now rewrite Hx.
  - unfold field_conforms in Hx. destruct (field_shape (fst f)) eqn:Hs.
    + now rewrite conforms_list_false in Hx.
    + unfold ModelField_validate. cbn [get_value fst snd]. rewrite Hs.
      rewrite validate_sequence_like_roundtrip; [reflexivity|].
      apply Forall_forall. intros y Hy. rewrite forallb_forall in Hx.
      destruct (IH y (Hx y Hy)) as [Hval Hnn].
      now rewrite validate_item_some.
Qed.

Lemma validate_model_roundtrip kw fs :
  Forall (fun f => forall v, conforms (snd f) v = true ->
                     validate py (snd f) (get_value true v) = Valid v
                     /\ get_value true v <> PNone) fs ->
  forall d,
    fields_conform conforms fs d = true ->
    (forall f kx, In (f, kx) (combine fs d) ->
                  get (alias (fst f)) kw = Some (get_value true (snd kx))) ->
    validate_model (map (fun f => (fst f, validate py (snd f))) fs) kw = (d, []).
Proof.
  induction 1 as [|f fs Hf _ IH]; intros [|[k x] d]; simpl; try discriminate.
  - reflexivity.
  - intros Hc Hget. apply andb_true_iff in Hc as [Hc Hrest].
    apply andb_true_iff in Hc as [Hk Hx]. apply String.eqb_eq in Hk. subst k.
    rewrite (IH d Hrest) by (intros g ky Hin; apply Hget; now right).
    rewrite (Hget f (name (fst f), x)) by now left.
    cbn [snd]. now rewrite (field_roundtrip f x Hf Hx).
Qed.

(** Decoding what the encoding by alias wrote of a conforming value gives
    the value back. *)
Lemma validate_get_value :
  forall t, well_formed t = true ->
  forall v, conforms t v = true ->
    validate py t (get_value true v) = Valid v /\ get_value true v <> PNone.
Proof.
  induction t as [| | |enum members|cls fs IH] using type_nested_ind;
    intros Hwf v Hc; try (destruct v; try discriminate; split; [reflexivity | discriminate]).
  - destruct v; try discriminate. cbn in Hc.
    split; [|discriminate]. cbn. now rewrite Hc.
  - destruct v as [| | | | | | |c d]; try discriminate.
    rewrite conforms_model in Hc. apply andb_true_iff in Hc as [Hcls Hfc].
    apply String.eqb_eq in Hcls. subst c.
    destruct (model_encoding cls fs d Hwf Hfc) as (_ & Hi & Hnn & Hkw & _).
    split; [|exact Hnn].
    change (validate py (T_model cls fs))
      with (Model_validate cls (map (fun f => (fst f, validate py (snd f))) fs)).
    unfold Model_validate. rewrite Hi, Hkw. unfold init.
    cbn [well_formed] in Hwf. apply andb_true_iff in Hwf as [Hwf Hsub].
    apply andb_true_iff in Hwf as [Hwf _]. apply andb_true_iff in Hwf as [Hdist _].
    destruct (distinct_self_key fs d Hdist) as [Hdist' Hself]. rewrite Hself.
    assert (HF : Forall (fun f => forall v, conforms (snd f) v = true ->
                           validate py (snd f) (get_value true v) = Valid v
                           /\ get_value true v <> PNone) fs).
    { rewrite forallb_forall in Hsub. rewrite Forall_forall in IH |- *.
      intros f Hf. apply IH; [assumption | now apply Hsub]. }
    assert (Hget : forall f kx, In (f, kx) (combine fs d) ->
              get (alias (fst f)) (written fs d) = Some (get_value true (snd kx)))
      by (intros f kx Hin; now apply get_written).
    now rewrite (validate_model_roundtrip (written fs d) fs HF d Hfc Hget).
Qed.

(** *** What decoding gives *)

Lemma setitem_plain k v (d : list (string * pyobj)) :
  plain v = true ->
  Forall (fun kx => plain (snd kx) = true) d ->
  Forall (fun kx => plain (snd kx) = true) (setitem k v d).
Proof.
  intros Hv. induction 1 as [|[k' x] d Hx Hd IH]; simpl.
  - now repeat constructor.
  - destruct (String.eqb k' k); constructor; auto.
Qed.

Lemma update_item_plain item k v :
  plain item = true -> update_item_of item = StrKey k v -> plain v = true.
Proof.
  intros Hp. destruct item as [| | |s| |items|items|]; try discriminate.
  - destruct s as [|a [|b [|? ?]]]; try discriminate. now intros [= _ <-].
  - destruct items as [|x items]; [discriminate|].
    destruct x; destruct items as [|y [|? ?]]; try discriminate.
    cbn [plain forallb] in Hp. apply andb_true_iff in Hp as [_ Hp].
    apply andb_true_iff in Hp as [Hp _]. now intros [= _ <-].
  - destruct items as [|[k1 x] [|[k2 y] [|? ?]]]; try discriminate. now intros [= _ <-].
Qed.

Lemma dict_update_plain items :
  forallb plain items = true ->
  forall acc str_keys kw,
    Forall (fun kx => plain (snd kx) = true) acc ->
    dict_update items acc str_keys = Kwargs kw ->
    Forall (fun kx => plain (snd kx) = true) kw.
Proof.
  induction items as [|item items IH]; intros Hp acc str_keys kw Hacc; simpl.
  - destruct str_keys; [now intros [= <-] | discriminate].
  - simpl in Hp. apply andb_true_iff in Hp as [Hi Hp].
    destruct (update_item_of item) as [k v| |] eqn:Hu; [| |discriminate].
    + apply IH; [assumption|]. apply setitem_plain; [|assumption].
      eapply update_item_plain; eassumption.
    + now apply IH.
Qed.

Lemma as_keywords_plain (fields : list ModelField) v kw :
  plain v = true ->
  as_keywords (enforce_dict_if_root fields v) = Kwargs kw ->
  Forall (fun kx => plain (snd kx) = true) kw.
Proof.
  intros Hp.
  assert (Hplain : forall u, plain u = true -> as_keywords u = Kwargs kw ->
                     Forall (fun kx => plain (snd kx) = true) kw).
  { intros u Hu. destruct u as [| | |s| |items|items|]; try discriminate.
    - destruct s; [intros [= <-]; constructor | discriminate].
    - simpl. intros H. eapply dict_update_plain; [exact Hu | constructor | exact H].
    - simpl. intros [= <-]. simpl in Hu. apply Forall_forall.
      now apply forallb_forall. }
  assert (Hwrap : as_keywords (PDict [("__root__", v)]) = Kwargs kw ->
                  Forall (fun kx => plain (snd kx) = true) kw).
  { intros [= <-]. now repeat constructor. }
  unfold enforce_dict_if_root. destruct (custom_root fields); [|now apply Hplain].
  destruct v as [| | | | | |items|]; try exact Hwrap; try discriminate.
  destruct items as [|[k x] [|? ?]]; try exact Hwrap.
  destruct (String.eqb k "__root__"); [now apply Hplain | exact Hwrap].
Qed.

Lemma get_plain k (kw : list (string * pyobj)) x :
  Forall (fun kx => plain (snd kx) = true) kw -> get k kw = Some x -> plain x = true.
Proof.
  intros HF Hg. apply get_In in Hg. apply in_map_iff in Hg as (kx & <- & Hin).
  rewrite Forall_forall in HF. now apply HF.
Qed.

Lemma conforms_none_false t : conforms t PNone = false.
Proof. destruct t; reflexivity. Qed.

Lemma conforms_as_field (f : FieldInfo * type_) y :
  field_shape (fst f) = SHAPE_SINGLETON ->
  conforms (snd f) y = true ->
  field_conforms conforms f y = true.
Proof.
  intros Hs Hc. unfold field_conforms. rewrite Hs.
  destruct y; try assumption. now rewrite conforms_none_false in Hc.
Qed.

Lemma validate_sequence_like_conforms val (c : pyobj -> bool) loc items :
  (forall v es, val v = Invalid es -> es <> []) ->
  (forall v w, plain v = true -> val v = Valid w -> c w = true) ->
  forallb plain items = true ->
  forall i result,
    validate_sequence_like val loc i items = (result, []) ->
    forallb c result = true.
Proof.
  intros Hne Hc. induction items as [|v items IH]; intros Hp i result; simpl.
  - now intros [= <-].
  - simpl in Hp. apply andb_true_iff in Hp as [Hv Hp].
    destruct (validate_sequence_like val loc (S i) items) as [r e] eqn:Hrest.
    destruct (validate_item val v) as [w|ee] eqn:Hw.
    + intros [= <- ->]. apply validate_item_valid in Hw as [Hw _].
      simpl. rewrite (Hc v w Hv Hw). eapply IH; eauto.
    + intros [= _ He]. apply app_eq_nil in He as [He _].
      apply relocate_nil_iff in He. now apply (validate_item_errors val v ee Hne) in Hw.
Qed.

Lemma field_validate_conforms (f : FieldInfo * type_) x y :
  (forall v w, plain v = true -> validate py (snd f) v = Valid w ->
               conforms (snd f) w = true) ->
  plain x = true ->
  ModelField_validate (fst f, validate py (snd f)) x = Valid y ->
  field_conforms conforms f y = true.
Proof.
  intros IH Hp.
  assert (Hsingle : field_shape (fst f) = SHAPE_SINGLETON ->
                    at_loc [LKey (alias (fst f))] (validate py (snd f) x) = Valid y ->
                    field_conforms conforms f y = true).
  { intros Hs. destruct (validate py (snd f) x) as [w|] eqn:Hw; [|discriminate].
    intros [= <-]. apply conforms_as_field; [assumption|]. now apply (IH x). }
  unfold ModelField_validate. cbn [fst snd].
  destruct x; try (destruct (field_shape (fst f)) eqn:Hs; [now apply Hsingle | discriminate]).
  - destruct (allow_none (fst f)) eqn:Ha; [|discriminate].
    intros [= <-]. exact Ha.
  - destruct (field_shape (fst f)) eqn:Hs; [now apply Hsingle|].
    destruct (validate_sequence_like _ _ _ _) as [r [|e es]] eqn:Hseq; [|discriminate].
    intros [= <-]. unfold field_conforms. rewrite Hs.
    eapply validate_sequence_like_conforms; [| |exact Hp|exact Hseq].
    + intros v es. apply validate_invalid_nonempty.
    + exact IH.
Qed.

Lemma validate_model_conforms kw fs :
  Forall (fun kx => plain (snd kx) = true) kw ->
  Forall (fun f => forall v w, plain v = true -> validate py (snd f) v = Valid w ->
                     conforms (snd f) w = true) fs ->
  forallb (fun f => required (fst f) || field_conforms conforms f (default (fst f))) fs
  = true ->
  forall values,
    validate_model (map (fun f => (fst f, validate py (snd f))) fs) kw = (values, []) ->
    fields_conform conforms fs values = true.
Proof.
  intros Hkw. induction 1 as [|f fs Hf _ IH]; intros Hd values; simpl.
  - now intros [= <-].
  - simpl in Hd. apply andb_true_iff in Hd as [Hdf Hd].
    destruct (validate_model _ kw) as [vals errs] eqn:Hrest.
    destruct (get (alias (fst f)) kw) as [x|] eqn:Hget.
    + destruct (ModelField_validate _ x) as [y|es] eqn:Hy.
      * intros [= <- ->]. cbn [fields_conform fst snd].
        rewrite String.eqb_refl, (IH Hd vals eq_refl).
        rewrite (field_validate_conforms f x y Hf (get_plain _ _ _ Hkw Hget) Hy).
        reflexivity.
      * intros [= _ He]. apply app_eq_nil in He as [He _]. subst es.
        now apply ModelField_validate_invalid_nonempty in Hy.
    + destruct (required (fst f)) eqn:Hr; [discriminate|].
      intros [= <- ->]. cbn [fields_conform fst snd].
      rewrite String.eqb_refl, (IH Hd vals eq_refl). simpl in Hdf. now rewrite Hdf.
Qed.

(** Decoding plain data gives a conforming value. *)
Lemma validate_conforms :
  forall t, defaults_conform t = true ->
  forall v w, plain v = true -> validate py t v = Valid w -> conforms t w = true.
Proof.
  induction t as [| | |enum members|cls fs IH] using type_nested_ind; intros Hd v w Hp.
  - intros H. apply str_validator_valid in H as [s ->]. reflexivity.
  - destruct v; simpl; try discriminate; try (intros [= <-]; reflexivity).
    destruct (int_of_str py s); [intros [= <-]; reflexivity | discriminate].
  - destruct v; simpl; try discriminate; try (intros [= <-]; reflexivity).
    + destruct (datetime_of_int py _); [intros [= <-]; reflexivity | discriminate].
    + destruct (datetime_of_int py n); [intros [= <-]; reflexivity | discriminate].
    + destruct (datetime_of_str py s); [intros [= <-]; reflexivity | discriminate].
  - destruct v; simpl; try discriminate.
    destruct (existsb (String.eqb s) members) eqn:He; [|discriminate].
    intros [= <-]. exact He.
  - change (validate py (T_model cls fs))
      with (Model_validate cls (map (fun f => (fst f, validate py (snd f))) fs)).
    unfold Model_validate.
    assert (Hi : isinstance v cls = false) by (destruct v; try reflexivity; discriminate).
    rewrite Hi.
    destruct (as_keywords _) as [kw| |] eqn:Hkw; try discriminate.
    apply as_keywords_plain in Hkw; [|assumption].
    unfold init. destruct (get "__pydantic_self__" kw); [discriminate|].
    destruct (validate_model _ kw) as [values [|e es]] eqn:Hvm; [|discriminate].
    intros [= <-]. rewrite conforms_model, String.eqb_refl. cbn [andb].
    cbn [defaults_conform] in Hd. rewrite forallb_forall in Hd.
    eapply validate_model_conforms; [exact Hkw | | | exact Hvm].
    + rewrite Forall_forall in IH |- *. intros f Hf. apply IH; [assumption|].
      specialize (Hd f Hf). now apply andb_true_iff in Hd as [_ Hd].
    + apply forallb_forall. intros f Hf. specialize (Hd f Hf).
      now apply andb_true_iff in Hd as [Hd _].
Qed.

Lemma classes_well_formed t :
  In t classes ->
  well_formed t = true /\ defaults_conform t = true
  /\ exists cls fs, t = T_model cls fs.
Proof.
  assert (H : forallb (fun t => well_formed t && defaults_conform t
                                && match t with T_model _ _ => true | _ => false end)
                      classes = true) by (vm_compute; reflexivity).
  rewrite forallb_forall in H. intros Hin. specialize (H t Hin).
  apply andb_true_iff in H as [H Hm]. apply andb_true_iff in H as [Hwf Hd].
  repeat split; try assumption.
  destruct t; try discriminate. eauto.
Qed.

Lemma parse_obj_conforms t obj v :
  In t classes -> plain obj = true -> parse_obj py t obj = Ok v -> conforms t v = true.
Proof.
  intros Ht Hp.
  destruct (classes_well_formed t Ht) as (_ & Hd & cls & fs & ->).
  unfold parse_obj, BaseModel_parse_obj, model_fields. cbn [class_name class_fields].
  intros H.
  apply (validate_conforms (T_model cls fs) Hd obj v Hp).
  change (validate py (T_model cls fs))
    with (Model_validate cls (map (fun f => (fst f, validate py (snd f))) fs)).
  unfold Model_validate.
  assert (Hi : isinstance obj cls = false) by (destruct obj; try reflexivity; discriminate).
  rewrite Hi. destruct (as_keywords _); try discriminate. now rewrite H.
Qed.

(** *** C1 *)

(** C1 (as the code has it).  For every class of the module and every
    value that conforms to its declaration, the encoding by alias exists and
    decoding it gives the value back.  Conforming values are the values
    decoding gives, and in them the elements of a chain, at the top or
    inside a [Quote] or a [ForwardNode], are instances of the base class:
    whatever a class decodes from plain data conforms to it. *)
Theorem decode_encode_roundtrip :
  forall (t : type_) (v : pyobj),
    In t classes ->
    (conforms t v = true ->
     exists obj, dict_ true v = Some obj /\ parse_obj py t obj = Ok v)
    /\ (forall raw, plain raw = true -> parse_obj py t raw = Ok v -> conforms t v = true).
Proof.
  intros t v Ht. split; [|intros raw; now apply parse_obj_conforms].
  intros Hc.
  destruct (classes_well_formed t Ht) as (Hwf & _ & cls & fs & ->).
  destruct v as [| | | | | | |c d]; try discriminate.
  pose proof Hc as Hc'.
  rewrite conforms_model in Hc. apply andb_true_iff in Hc as [Hcls Hfc].
  apply String.eqb_eq in Hcls. subst c.
  destruct (model_encoding cls fs d Hwf Hfc) as (Hd & _ & _ & _ & Hkw).
  exists (PDict (written fs d)). split; [exact Hd|].
  unfold parse_obj, BaseModel_parse_obj, model_fields. cbn [class_name class_fields].
  rewrite Hkw. unfold init.
  cbn [well_formed] in Hwf. apply andb_true_iff in Hwf as [Hwf Hsub].
  apply andb_true_iff in Hwf as [Hwf _]. apply andb_true_iff in Hwf as [Hdist _].
  destruct (distinct_self_key fs d Hdist) as [Hdist' Hself]. rewrite Hself.
  assert (HF : Forall (fun f => forall v, conforms (snd f) v = true ->
                         validate py (snd f) (get_value true v) = Valid v
                         /\ get_value true v <> PNone) fs).
  { rewrite forallb_forall in Hsub. apply Forall_forall.
    intros f Hf. apply validate_get_value. now apply Hsub. }
  assert (Hget : forall f kx, In (f, kx) (combine fs d) ->
            get (alias (fst f)) (written fs d) = Some (get_value true (snd kx)))
    by (intros f kx Hin; now apply get_written).
  now rewrite (validate_model_roundtrip (written fs d) fs HF d Hfc Hget).
Qed.
End Properties.

(** ** The claims on examples *)

(** C1, as stated, fails: a chain that holds a [Plain] is a valid chain,
    its encoding decodes, and what comes back holds a bare [Element] in
    place of the [Plain]; the text is gone, also for the comparison of the
    two chains by their dicts. *)
Lemma chain_roundtrip_drops_variant_fields :
  admits (chain_of [Plain_hi]) MessageChain = true
  /\ dict_ true (chain_of [Plain_hi]) = Some (PDict [("__root__", PList [Plain_hi_payload])])
  /\ parse_obj numerals MessageChain (PDict [("__root__", PList [Plain_hi_payload])])
     = Ok (chain_of [base_element "Plain"])
  /\ chain_of [base_element "Plain"] <> chain_of [Plain_hi]
  /\ dict_ false (chain_of [base_element "Plain"]) <> dict_ false (chain_of [Plain_hi]).
Proof. repeat split; try reflexivity; discriminate. Qed.

Lemma decode_encode_roundtrip_witness :
  In Quote classes
  /\ conforms Quote Quote_decoded = true
  /\ exists obj, dict_ true Quote_decoded = Some obj
                 /\ parse_obj numerals Quote obj = Ok Quote_decoded.
Proof.
  assert (Hin : In Quote classes) by (unfold classes, variants; simpl; tauto).
  split; [exact Hin|]. split; [reflexivity|].
  exact (proj1 (decode_encode_roundtrip numerals Quote Quote_decoded Hin) eq_refl).
Defined.

(** C2, as stated, fails: an object without [type] and an object whose
    [type] is no tag of the module both decode. *)
Lemma untagged_and_unknown_objects_decode :
  parse_obj numerals Element (PDict []) = Ok (base_element "Unknown")
  /\ parse_obj numerals Element (PDict [("type", PStr "NoSuchKind"); ("x", PInt 1)])
     = Ok (base_element "NoSuchKind").
Proof. split; reflexivity. Qed.

Lemma Element_decode_any_tag_witness :
  (parse_obj numerals Element (PDict [("type", PStr "NoSuchKind")])
   = Ok (base_element "NoSuchKind")
   /\ validate numerals Element (PDict [("type", PStr "NoSuchKind")])
      = Valid (base_element "NoSuchKind"))
  /\ (parse_obj numerals Element (PDict [("type", PStr "Plain"); ("__pydantic_self__", PInt 1)])
      = TypeError
      /\ validate numerals Element
           (PDict [("type", PStr "Plain"); ("__pydantic_self__", PInt 1)])
         = Invalid [([], PyTypeError)]).
Proof.
  split.
  - apply (Element_decode_any_tag numerals [("type", PStr "NoSuchKind")] "NoSuchKind");
      [right|]; reflexivity.
  - apply (Element_decode_any_tag numerals
             [("type", PStr "Plain"); ("__pydantic_self__", PInt 1)] "Plain");
      [right; reflexivity | discriminate].
Defined.

Lemma MessageChain_decodes_to_base_elements_witness :
  exists tags : list string,
    chain_of [base_element "Plain"; base_element "Unknown"]
    = chain_of (map base_element tags)
    /\ Forall2
         (fun kw t =>
            (get "type" kw = None -> t = "Unknown")
            /\ (forall s, get "type" kw = Some (PStr s) -> t = s))
         [[("type", PStr "Plain"); ("text", PStr "hi")]; [("text", PStr "hi")]] tags.
Proof.
  apply (MessageChain_decodes_to_base_elements numerals
           [[("type", PStr "Plain"); ("text", PStr "hi")]; [("text", PStr "hi")]]).
  reflexivity.
Defined.

(** C4, as stated, fails: [method] is not a key the decoder of [Poke]
    reads, so a payload that names a member under [method] does not
    decode, and one that names a non-member fails for the missing [name],
    not for the value. *)
Lemma Poke_method_key_is_not_read :
  parse_obj numerals Poke (PDict [("type", PStr "Poke"); ("method", PStr "DianZan")])
  = ValidationError "Poke" [([LKey "name"], MissingError)]
  /\ parse_obj numerals Poke (PDict [("type", PStr "Poke"); ("method", PStr "NotARealMethod")])
     = ValidationError "Poke" [([LKey "name"], MissingError)].
Proof. split; reflexivity. Qed.

Lemma Poke_name_accepts_the_members_witness :
  parse_obj numerals Poke (PDict [("type", PStr "Poke"); ("name", PStr "DianZan")])
  = Ok (PModel "Poke" [("type", PStr "Poke"); ("name", PStr "DianZan")])
  /\ parse_obj numerals Poke (PDict [("type", PStr "Poke"); ("name", PStr "NotARealMethod")])
     = ValidationError "Poke" [([LKey "name"], EnumMemberError)].
Proof.
  split.
  - apply (Poke_name_accepts_the_members numerals
             [("type", PStr "Poke"); ("name", PStr "DianZan")] "Poke" "DianZan"
             eq_refl eq_refl eq_refl).
    simpl. tauto.
  - apply (Poke_name_accepts_the_members numerals
             [("type", PStr "Poke"); ("name", PStr "NotARealMethod")] "Poke"
             "NotARealMethod" eq_refl eq_refl eq_refl).
    simpl. intros H. repeat (destruct H as [H | H]; [discriminate|]). contradiction.
Defined.

(** C5, as stated, fails: [dict] called without arguments writes the
    content under the name of the field, and the key [json] is absent from
    what it gives. *)
Lemma Json_default_encoding_writes_field_name :
  dict_ false (Json_element json_text)
  = Some (PDict [("type", PStr "Json"); ("Json", PStr json_text)])
  /\ get "json" [("type", PStr "Json"); ("Json", PStr json_text)] = None.
Proof. split; reflexivity. Qed.

Lemma Json_reads_alias_and_writes_it_by_alias_witness :
  parse_obj numerals Json (PDict [("type", PStr "Json"); ("json", PStr json_text)])
  = Ok (PModel "Json" [("type", PStr "Json"); ("Json", PStr json_text)])
  /\ dict_ true (PModel "Json" [("type", PStr "Json"); ("Json", PStr json_text)])
     = Some (PDict [("type", PStr "Json"); ("json", PStr json_text)])
  /\ dict_ false (PModel "Json" [("type", PStr "Json"); ("Json", PStr json_text)])
     = Some (PDict [("type", PStr "Json"); ("Json", PStr json_text)]).
Proof.
  apply (Json_reads_alias_and_writes_it_by_alias numerals
           [("type", PStr "Json"); ("json", PStr json_text)] "Json" json_text eq_refl);
    [right|]; reflexivity.
Defined.



(** C7, as stated, fails: the decoding goes on after the first element
    that fails, and the error lists the later failing elements as well, a
    [None] among them with the line of the item that may not be [None]. *)
Lemma chain_decode_is_not_fail_fast :
  MessageChain_init numerals (PList [PInt 5; PInt 6])
  = ValidationError "MessageChain"
      [([LKey "__root__"; LIdx 0], DictError); ([LKey "__root__"; LIdx 1], DictError)]
  /\ MessageChain_init numerals (PList [PInt 5; AtAll_payload])
     = ValidationError "MessageChain" [([LKey "__root__"; LIdx 0], DictError)]
  /\ MessageChain_init numerals (PList [AtAll_payload; PInt 5; Plain_hi_payload; PNone])
     = ValidationError "MessageChain"
         [([LKey "__root__"; LIdx 1], DictError);
          ([LKey "__root__"; LIdx 3], NoneIsNotAllowedError)].
Proof. repeat split; reflexivity. Qed.

Lemma MessageChain_decode_reports_all_failures_witness :
  exists (pre : list pyobj) (v : pyobj) (post : list pyobj) (ee : list ErrorWrapper),
    [AtAll_payload; PInt 5; Plain_hi_payload; PNone] = pre ++ v :: post
    /\ Forall (fun p => exists e, validate_item (validate numerals Element) p = Valid e) pre
    /\ validate_item (validate numerals Element) v = Invalid ee
    /\ ee <> []
    /\ MessageChain_init numerals (PList [AtAll_payload; PInt 5; Plain_hi_payload; PNone]) =
       ValidationError "MessageChain"
         (relocate [LKey "__root__"; LIdx (List.length pre)] ee
          ++ snd (validate_sequence_like (validate numerals Element) [LKey "__root__"]
                    (S (List.length pre)) post)).
Proof.
  apply (MessageChain_decode_reports_all_failures numerals
           [AtAll_payload; PInt 5; Plain_hi_payload; PNone]).
  apply Exists_cons_tl, Exists_cons_hd. eexists. reflexivity.
Defined.

(** C8, as stated, fails on its own example: the chain decodes to two
    elements in order, and its encoding is not the array it was decoded
    from, the text of the first element being gone. *)
Lemma example_chain_is_not_reproduced :
  MessageChain_init numerals (PList [Plain_hi_payload; AtAll_payload])
  = Ok (chain_of [base_element "Plain"; base_element "AtAll"])
  /\ dict_ true (chain_of [base_element "Plain"; base_element "AtAll"])
     = Some (PDict [("__root__", PList [PDict [("type", PStr "Plain")]; AtAll_payload])])
  /\ PList [PDict [("type", PStr "Plain")]; AtAll_payload]
     <> PList [Plain_hi_payload; AtAll_payload].
Proof. repeat split; try reflexivity; discriminate. Qed.

Lemma MessageChain_keeps_order_witness :
  exists elements : list pyobj,
    chain_of [base_element "Plain"; base_element "AtAll"] = chain_of elements
    /\ Forall2 (fun p e => validate numerals Element p = Valid e)
         [Plain_hi_payload; AtAll_payload] elements
    /\ forall by_alias,
         dict_ by_alias (chain_of [base_element "Plain"; base_element "AtAll"])
         = Some (PDict [("__root__", PList (map (get_value by_alias) elements))]).
Proof.
  apply (MessageChain_keeps_order numerals [Plain_hi_payload; AtAll_payload]).
  reflexivity.
Defined.

(** C9, as stated, fails: a payload may set [type], and the decoder of
    [Plain] then gives a [Plain] whose [type] is not ["Plain"]. *)
Lemma Plain_with_another_type :
  parse_obj numerals Plain (PDict [("type", PStr "Image"); ("text", PStr "x")])
  = Ok (PModel "Plain" [("type", PStr "Image"); ("text", PStr "x")]).
Proof. reflexivity. Qed.

Lemma variant_type_defaults_to_its_tag_witness :
  exists d,
    PModel "Plain" [("type", PStr "Plain"); ("text", PStr "hi")] = PModel (class_name Plain) d
    /\ (get "type" [("text", PStr "hi")] = None
        -> get "type" d = Some (PStr (class_name Plain)))
    /\ (forall s, get "type" [("text", PStr "hi")] = Some (PStr s)
                  -> get "type" d = Some (PStr s)).
Proof.
  apply (variant_type_defaults_to_its_tag numerals Plain [("text", PStr "hi")]).
  - unfold variants. simpl. tauto.
  - reflexivity.
Defined.

Lemma dict_is_total_witness :
  admits Quote_nested Element = true
  /\ exists d,
       dict_ false Quote_nested = Some (PDict d)
       /\ plain (PDict d) = true
       /\ (admits Quote_nested Element = true ->
           get_value false Quote_nested = PDict d
           /\ exists s, get "type" d = Some (PStr s))
       /\ (admits Quote_nested MessageChain = true ->
           exists elements,
             Quote_nested = chain_of elements
             /\ d = [("__root__", PList (map (get_value false) elements))]
             /\ Forall (fun e => admits e Element = true) elements).
Proof.
  split; [reflexivity|].
  apply (dict_is_total Quote_nested false). left. reflexivity.
Defined.

(** ** Further properties of the declarations *)

From Stdlib Require Import Permutation.

Section MoreProperties.

Variable py : Builtins.

(** *** Payloads and the keys a class reads *)

Lemma records_no_root t :
  In t records -> custom_root (model_fields py t) = false.
Proof.
  unfold records, variants. simpl.
  intros H; repeat (destruct H as [<- | H]; [reflexivity|]); contradiction.
Qed.

Lemma validate_model_absent (fs : list (FieldInfo * type_)) kw :
  (forall f, In f fs -> get (alias (fst f)) kw = None) ->
  validate_model (map (fun f => (fst f, validate py (snd f))) fs) kw
  = (defaults_of fs, missing_lines fs).
Proof.
  unfold defaults_of, missing_lines.
  induction fs as [|f fs IH]; intros H; simpl; [reflexivity|].
  rewrite IH by (intros g Hg; apply H; now right).
  rewrite (H f) by now left.
  destruct (required (fst f)); reflexivity.
Qed.

(** X1.  A payload that has none of the keys a class reads, nor the key
    [__pydantic_self__] that no class can be called with, decodes to the
    defaults of the class when the class has no required field, and
    otherwise fails with exactly one missing-field line for each required
    field, in declaration order.  The classes without a required field are
    [Element], [MultimediaElement], [AtAll], [Face], [Json], [Image],
    [FlashImage] and [Voice]. *)
Theorem payload_without_keys :
  forall (t : type_) (kw : list (string * pyobj)),
    In t records ->
    get "__pydantic_self__" kw = None ->
    (forall f, In f (class_fields t) -> get (alias (fst f)) kw = None) ->
    parse_obj py t (PDict kw)
    = match missing_lines (class_fields t) with
      | [] => Ok (PModel (class_name t) (defaults_of (class_fields t)))
      | _ :: _ => ValidationError (class_name t) (missing_lines (class_fields t))
      end
    /\ (missing_lines (class_fields t) = []
        <-> In (class_name t)
              ["Element"; "MultimediaElement"; "AtAll"; "Face"; "Json"; "Image";
               "FlashImage"; "Voice"]).
Proof.
  intros t kw Ht Hself Hkw. split.
  - rewrite (parse_obj_dict py t kw (records_no_root t Ht)).
    unfold construct, init, model_fields. rewrite Hself.
    rewrite (validate_model_absent _ kw Hkw).
    destruct (missing_lines (class_fields t)); reflexivity.
  - clear Hkw. unfold records, variants in Ht. simpl in Ht.
    repeat (destruct Ht as [<- | Ht];
            [vm_compute; split; intros H;
             try discriminate; try reflexivity; try tauto;
             repeat (destruct H as [H | H]; [discriminate|]); contradiction|]).
    contradiction.
Qed.

Lemma validate_model_skip_key (fields : list ModelField) kw k x :
  existsb (fun f => String.eqb (alias (fst f)) k) fields = false ->
  validate_model fields ((k, x) :: kw) = validate_model fields kw.
Proof.
  induction fields as [|f fields IH]; simpl; [reflexivity|].
  intros H. apply orb_false_iff in H as [Hf H]. rewrite (IH H).
  rewrite String.eqb_sym in Hf. rewrite Hf. reflexivity.
Qed.

Lemma existsb_model_fields (fs : list (FieldInfo * type_)) k :
  existsb (fun f : ModelField => String.eqb (alias (fst f)) k)
          (map (fun f => (fst f, validate py (snd f))) fs)
  = existsb (fun f => String.eqb (alias (fst f)) k) fs.
Proof. induction fs as [|f fs IH]; simpl; [reflexivity | now rewrite IH]. Qed.

(** X2.  A key that no field of a class reads is ignored, [__pydantic_self__]
    apart: the payload with the key decodes to what the payload without it
    decodes to, result or error.  With the key [__pydantic_self__] the call
    of the class raises a [TypeError], whatever else the payload holds. *)
Theorem unread_key_is_ignored :
  forall (t : type_) (kw : list (string * pyobj)) (k : string) (x : pyobj),
    In t records ->
    reads t k = false ->
    (k <> "__pydantic_self__" ->
     parse_obj py t (PDict ((k, x) :: kw)) = parse_obj py t (PDict kw))
    /\ (k = "__pydantic_self__" ->
        parse_obj py t (PDict ((k, x) :: kw)) = TypeError).
Proof.
  intros t kw k x Ht Hk.
  rewrite !(parse_obj_dict py t _ (records_no_root t Ht)).
  unfold construct, init. split.
  - intros Hne. apply String.eqb_neq in Hne.
    cbn [get]. rewrite Hne.
    rewrite validate_model_skip_key; [reflexivity|].
    unfold model_fields, reads in *. now rewrite existsb_model_fields.
  - intros ->. reflexivity.
Qed.

Lemma nullable_fields t info ty :
  In t records ->
  In (info, ty) (class_fields t) ->
  allow_none info = negb (required info || String.eqb (name info) "type").
Proof.
  assert (H : forallb (fun t =>
                forallb (fun f => Bool.eqb (allow_none (fst f))
                                    (negb (required (fst f)
                                           || String.eqb (name (fst f)) "type")))
                        (class_fields t)) records = true) by (vm_compute; reflexivity).
  rewrite forallb_forall in H. intros Ht Hf. specialize (H t Ht).
  rewrite forallb_forall in H. specialize (H _ Hf). now apply Bool.eqb_prop in H.
Qed.

(** X3.  An explicit [None] is accepted for the optional fields and for no
    other: given for a required field or for [type], in a payload the class
    can be called on (one without the key [__pydantic_self__]), it fails the
    decoding with a none-not-allowed line for the field; given for an
    optional field it is the value the field holds whenever the decoding
    succeeds. *)
Theorem explicit_None :
  forall (t : type_) (info : FieldInfo) (ty : type_) (kw : list (string * pyobj)),
    In t records ->
    In (info, ty) (class_fields t) ->
    get (alias info) kw = Some PNone ->
    (get "__pydantic_self__" kw = None ->
     required info = true \/ name info = "type" ->
     exists errors,
       parse_obj py t (PDict kw) = ValidationError (class_name t) errors
       /\ In ([LKey (alias info)], NoneIsNotAllowedError) errors)
    /\ (required info = false -> name info <> "type" ->
        forall r, parse_obj py t (PDict kw) = Ok r ->
                  exists d, r = PModel (class_name t) d /\ In (name info, PNone) d).
Proof.
  intros t info ty kw Ht Hf Hget.
  pose proof (nullable_fields t info ty Ht Hf) as Hnull.
  rewrite (parse_obj_dict py t kw (records_no_root t Ht)). unfold construct.
  assert (Hin : In (info, validate py ty) (model_fields py t)).
  { unfold model_fields. apply in_map_iff. exists (info, ty). now split. }
  split.
  - intros Hself Hreq.
    assert (Ha : allow_none info = false).
    { rewrite Hnull. destruct Hreq as [-> | ->]; [reflexivity|].
      now rewrite orb_true_r. }
    assert (Hv : ModelField_validate (info, validate py ty) PNone
                 = Invalid [([LKey (alias info)], NoneIsNotAllowedError)]).
    { unfold ModelField_validate. cbn [fst]. now rewrite Ha. }
    pose proof (validate_model_invalid _ kw _ _ _ Hin Hget Hv) as Hi.
    eexists. split; [eapply init_fails; [exact Hself | apply Hi; now left]
                    | apply Hi; now left].
  - intros Hreq Hname r Hr.
    assert (Ha : allow_none info = true).
    { rewrite Hnull, Hreq. apply String.eqb_neq in Hname. now rewrite Hname. }
    assert (Hv : ModelField_validate (info, validate py ty) PNone = Valid PNone).
    { unfold ModelField_validate. cbn [fst]. now rewrite Ha. }
    eexists. split; [exact (init_ok _ _ _ _ Hr)|].
    exact (validate_model_valid _ kw _ _ _ Hin Hget Hv).
Qed.

(** X4.  The field [kind] of [MusicShare] accepts the five members of
    [MusicShareKind] and no other string.  A payload that gives [type], a
    member as [kind] and none of the six optional texts decodes to a
    [MusicShare] whose six texts are [None]; with any other string as [kind]
    it fails with the single line of an enum error at [kind].  (The payload
    is one the class can be called on: it has no key [__pydantic_self__].) *)
Theorem MusicShare_kind_accepts_the_members :
  forall (kw : list (string * pyobj)) (ty s : string),
    get "__pydantic_self__" kw = None ->
    get "type" kw = Some (PStr ty) ->
    get "kind" kw = Some (PStr s) ->
    (forall k, In k ["title"; "summary"; "jumpUrl"; "pictureUrl"; "musicUrl"; "brief"] ->
               get k kw = None) ->
    (In s MusicShareKind -> parse_obj py MusicShare (PDict kw) = Ok (MusicShare_of ty s))
    /\ (~ In s MusicShareKind ->
        parse_obj py MusicShare (PDict kw)
        = ValidationError "MusicShare" [([LKey "kind"], EnumMemberError)])
    /\ List.length MusicShareKind = 5
    /\ NoDup MusicShareKind.
Proof.
  intros kw ty s Hself Hty Hkind Hopt.
  assert (Hp : parse_obj py MusicShare (PDict kw) =
               if existsb (String.eqb s) MusicShareKind
               then Ok (MusicShare_of ty s)
               else ValidationError "MusicShare" [([LKey "kind"], EnumMemberError)]).
  { rewrite (parse_obj_dict py MusicShare kw eq_refl).
    unfold construct, init. rewrite Hself. cbn -[existsb MusicShareKind].
    rewrite Hty, Hkind.
    rewrite !Hopt by (simpl; tauto).
    cbn -[existsb MusicShareKind].
    destruct (existsb (String.eqb s) MusicShareKind); reflexivity. }
  repeat split.
  - intros Hin. rewrite Hp.
    assert (H : existsb (String.eqb s) MusicShareKind = true).
    { apply existsb_exists. exists s. split; [assumption | apply String.eqb_refl]. }
    now rewrite H.
  - intros Hnot. rewrite Hp.
    destruct (existsb (String.eqb s) MusicShareKind) eqn:H; [|reflexivity].
    apply existsb_exists in H as (x & Hx & Heq).
    apply String.eqb_eq in Heq. subst x. contradiction.
  - unfold MusicShareKind.
    repeat (constructor;
            [simpl; intros H; repeat (destruct H as [H | H]; [discriminate|]);
             contradiction|]).
    constructor.
Qed.

(** *** The chain container *)

Lemma validate_sequence_like_kept val loc items :
  Forall (fun e => validate_item val e = Valid e) items ->
  forall i, validate_sequence_like val loc i items = (items, []).
Proof.
  induction 1 as [|e items He _ IH]; intros i; simpl; [reflexivity|].
  now rewrite IH, He.
Qed.

(** X5.  A chain built from elements that are already instances of
    [Element] or of a subclass holds these very instances, in order: the
    constructor neither converts nor validates them. *)
Theorem MessageChain_keeps_instances :
  forall elements : list pyobj,
    Forall (fun e => isinstance e "Element" = true) elements ->
    MessageChain_init py (PList elements) = Ok (chain_of elements).
Proof.
  intros elements H. rewrite MessageChain_init_list.
  rewrite validate_sequence_like_kept; [reflexivity|].
  apply Forall_forall. intros e He. rewrite Forall_forall in H.
  specialize (H e He).
  rewrite validate_item_some by (intros ->; discriminate).
  rewrite Element_validate_unfold. now rewrite H.
Qed.

Lemma MessageChain_validate_unfold v :
  validate py MessageChain v
  = if isinstance v "MessageChain" then Valid v
    else
      match as_keywords (enforce_dict_if_root (model_fields py MessageChain) v) with
      | Kwargs kw => raised (init "MessageChain" (model_fields py MessageChain) kw)
      | NotADict => raise DictError
      | NonStrKeywords => raise PyTypeError
      end.
Proof. reflexivity. Qed.

Lemma MessageChain_wraps v :
  (forall x, v <> PDict [("__root__", x)]) ->
  (forall c x, v <> PModel c [("__root__", x)]) ->
  as_keywords (enforce_dict_if_root (model_fields py MessageChain) v)
  = Kwargs [("__root__", v)].
Proof.
  intros Hv Hm. unfold enforce_dict_if_root.
  change (custom_root (model_fields py MessageChain)) with true. cbn iota.
  destruct v as [| | | | | |items|c items]; try reflexivity;
    destruct items as [|[k x] [|? ?]]; try reflexivity;
    (destruct (String.eqb k "__root__") eqn:E; [|reflexivity]);
    apply String.eqb_eq in E; subst k.
  - now contradiction (Hv x).
  - now contradiction (Hm c x).
Qed.

(** X7.  [parse_obj] of the chain takes the bare array and the dict with the
    single key [__root__] alike, and an instance whose only field is
    [__root__], a chain among them, as that dict: on the dict and on the
    instance it is the constructor on the value under [__root__], on any
    other object it is the constructor on the object itself.  So
    [parse_obj] of a chain validates its elements again, where the
    constructor on a chain fails for want of a list.  The validator of a
    field whose type is the chain (the origin of a [Quote], the chain of a
    [ForwardNode]) does as [parse_obj] on whatever is not already a
    chain. *)
Theorem MessageChain_parse_obj_is_init :
  forall v : pyobj,
    parse_obj py MessageChain (PDict [("__root__", v)]) = MessageChain_init py v
    /\ (forall c, parse_obj py MessageChain (PModel c [("__root__", v)])
                  = MessageChain_init py v)
    /\ (forall elements,
          parse_obj py MessageChain (chain_of elements)
          = MessageChain_init py (PList elements)
          /\ MessageChain_init py (chain_of elements)
             = ValidationError "MessageChain" [([LKey "__root__"], ListError)])
    /\ ((forall x, v <> PDict [("__root__", x)]) ->
        (forall c x, v <> PModel c [("__root__", x)]) ->
        parse_obj py MessageChain v = MessageChain_init py v
        /\ (isinstance v "MessageChain" = false ->
            validate py MessageChain v = raised (MessageChain_init py v))).
Proof.
  intros v. split; [reflexivity|]. split; [reflexivity|].
  split; [intros elements; split; reflexivity|].
  intros Hv Hm. split.
  - unfold parse_obj, BaseModel_parse_obj. cbn [class_name MessageChain].
    change (model_fields py (T_model "MessageChain" [req_list "__root__" Element]))
      with (model_fields py MessageChain).
    now rewrite (MessageChain_wraps v Hv Hm).
  - intros Hi. rewrite MessageChain_validate_unfold, Hi.
    now rewrite (MessageChain_wraps v Hv Hm).
Qed.

Lemma MessageChain_validate_list items :
  validate py MessageChain (PList items) = raised (MessageChain_init py (PList items)).
Proof. reflexivity. Qed.

(** *** Chains inside elements *)

(** X8.  The origin of a [Quote] given as an array is decoded as the chain
    constructor decodes the array: when the [Quote] decodes, its [origin] is
    the chain the constructor gives; when the constructor fails, on a
    payload the class can be called on (one without the key
    [__pydantic_self__]), the [Quote] fails and its error holds the lines of
    the constructor, each under [origin]. *)
Theorem Quote_origin_is_a_chain :
  forall (kw : list (string * pyobj)) (items : list pyobj),
    get "origin" kw = Some (PList items) ->
    (forall r, parse_obj py Quote (PDict kw) = Ok r ->
               exists d c,
                 r = PModel "Quote" d
                 /\ MessageChain_init py (PList items) = Ok c
                 /\ In ("origin", c) d)
    /\ (forall es, get "__pydantic_self__" kw = None ->
                   MessageChain_init py (PList items) = ValidationError "MessageChain" es ->
                   exists errors,
                     parse_obj py Quote (PDict kw) = ValidationError "Quote" errors
                     /\ incl (relocate [LKey "origin"] es) errors).
Proof.
  intros kw items Hget.
  rewrite (parse_obj_dict py Quote kw eq_refl). unfold construct.
  change (class_name Quote) with "Quote".
  assert (Hin : In (fst (req "origin" MessageChain), validate py MessageChain)
                   (model_fields py Quote)) by (simpl; tauto).
  assert (Hf : ModelField_validate
                 (fst (req "origin" MessageChain), validate py MessageChain) (PList items)
               = at_loc [LKey "origin"] (raised (MessageChain_init py (PList items))))
    by reflexivity.
  split.
  - intros r Hr.
    destruct (MessageChain_init py (PList items)) as [c|m es|] eqn:Hc.
    + exists (fst (validate_model (model_fields py Quote) kw)), c.
      split; [exact (init_ok _ _ _ _ Hr)|]. split; [reflexivity|].
      exact (validate_model_valid _ kw _ _ _ Hin Hget Hf).
    + pose proof (validate_model_invalid _ kw _ _ _ Hin Hget Hf) as Hi.
      assert (Hne : es <> []).
      { intros ->. rewrite MessageChain_init_list in Hc.
        destruct (validate_sequence_like _ _ _ _) as [? [|? ?]]; discriminate. }
      destruct es as [|e es]; [contradiction|].
      unfold init in Hr.
      destruct (get "__pydantic_self__" kw); [discriminate|].
      destruct (validate_model (model_fields py Quote) kw) as [vals [|e' errs]];
        [|discriminate].
      now contradiction (Hi _ (or_introl eq_refl)).
    + rewrite MessageChain_init_list in Hc.
      destruct (validate_sequence_like _ _ _ _) as [? [|? ?]]; discriminate.
  - intros es Hself Hc. rewrite Hc in Hf. cbn [raised at_loc] in Hf.
    pose proof (validate_model_invalid _ kw _ _ _ Hin Hget Hf) as Hi.
    assert (Hne : es <> []).
    { intros ->. rewrite MessageChain_init_list in Hc.
      destruct (validate_sequence_like _ _ _ _) as [? [|? ?]]; discriminate. }
    destruct es as [|e es]; [contradiction|].
    eexists. split; [|exact Hi].
    eapply init_fails; [exact Hself|]. apply Hi. now left.
Qed.

Lemma validate_sequence_like_item_error val loc items :
  forall i j p es,
    nth_error items i = Some p ->
    validate_item val p = Invalid es ->
    incl (relocate (loc ++ [LIdx (j + i)]) es)
         (snd (validate_sequence_like val loc j items)).
Proof.
  induction items as [|x items IH]; intros [|i] j p es Hn Hp; simpl in Hn; try discriminate.
  - injection Hn as ->. simpl. rewrite Hp, Nat.add_0_r.
    destruct (validate_sequence_like val loc (S j) items). simpl.
    apply incl_appl, incl_refl.
  - specialize (IH i (S j) p es Hn Hp).
    replace (S j + i) with (j + S i) in IH by lia.
    simpl. destruct (validate_sequence_like val loc (S j) items) as [r e].
    destruct (validate_item val x); simpl in *; [assumption | now apply incl_appr].
Qed.

(** X9.  The nodes of a [Forward] are decoded one by one as [ForwardNode]:
    when the [Forward] decodes, its [nodeList] holds one node per payload,
    in order, each the decoding of its payload; when the node at index [i]
    fails, as an item of the list ([None] with a none-not-allowed line,
    anything else with the lines of [ForwardNode]), on a payload the class
    can be called on (one without the key [__pydantic_self__]), the
    [Forward] fails and its error holds the lines of that node under
    [nodeList] and [i]. *)
Theorem Forward_decodes_its_nodes :
  forall (kw : list (string * pyobj)) (nodes : list pyobj),
    get "nodeList" kw = Some (PList nodes) ->
    (forall r, parse_obj py Forward (PDict kw) = Ok r ->
               exists d ns,
                 r = PModel "Forward" d
                 /\ In ("nodeList", PList ns) d
                 /\ Forall2 (fun p n => validate py ForwardNode p = Valid n) nodes ns)
    /\ (forall i p es,
          get "__pydantic_self__" kw = None ->
          nth_error nodes i = Some p ->
          validate_item (validate py ForwardNode) p = Invalid es ->
          exists errors,
            parse_obj py Forward (PDict kw) = ValidationError "Forward" errors
            /\ es <> []
            /\ incl (relocate [LKey "nodeList"; LIdx i] es) errors).
Proof.
  intros kw nodes Hget.
  rewrite (parse_obj_dict py Forward kw eq_refl). unfold construct.
  change (class_name Forward) with "Forward".
  assert (Hin : In (fst (req_list "nodeList" ForwardNode), validate py ForwardNode)
                   (model_fields py Forward)) by (simpl; tauto).
  assert (Hf : ModelField_validate
                 (fst (req_list "nodeList" ForwardNode), validate py ForwardNode)
                 (PList nodes)
               = match validate_sequence_like (validate py ForwardNode)
                         [LKey "nodeList"] 0 nodes with
                 | (result, []) => Valid (PList result)
                 | (_, errors) => Invalid errors
                 end) by reflexivity.
  destruct (validate_sequence_like (validate py ForwardNode) [LKey "nodeList"] 0 nodes)
    as [ns errs] eqn:Hseq.
  split.
  - intros r Hr. destruct errs as [|e errs].
    + exists (fst (validate_model (model_fields py Forward) kw)), ns.
      split; [exact (init_ok _ _ _ _ Hr)|].
      split; [exact (validate_model_valid _ kw _ _ _ Hin Hget Hf)|].
      eapply validate_sequence_like_valid; [|exact Hseq].
      intros v es. apply validate_invalid_nonempty.
    + pose proof (validate_model_invalid _ kw _ _ _ Hin Hget Hf) as Hi.
      unfold init in Hr.
      destruct (get "__pydantic_self__" kw); [discriminate|].
      destruct (validate_model (model_fields py Forward) kw) as [vals [|e' errs']];
        [|discriminate].
      now contradiction (Hi _ (or_introl eq_refl)).
  - intros i p es Hself Hn Hp.
    pose proof (validate_sequence_like_item_error
                  (validate py ForwardNode) [LKey "nodeList"] nodes i 0 p es Hn Hp) as Hitem.
    rewrite Hseq in Hitem. cbn [snd app Nat.add] in Hitem.
    pose proof (validate_item_errors _ _ _ (validate_invalid_nonempty py ForwardNode) Hp)
      as Hne.
    destruct es as [|e es]; [contradiction|].
    destruct errs as [|e' errs].
    { exfalso. apply (Hitem (([LKey "nodeList"; LIdx i] ++ fst e)%list, snd e)). now left. }
    pose proof (validate_model_invalid _ kw _ _ _ Hin Hget Hf) as Hi.
    eexists. split; [eapply init_fails; [exact Hself | apply Hi; now left]|].
    split; [discriminate|].
    intros a Ha. apply Hi. now apply Hitem.
Qed.

(** *** What the encoding writes *)

Lemma find_class_some c table t :
  find_class c table = Some t -> In t table /\ class_name t = c.
Proof.
  induction table as [|x table IH]; simpl; [discriminate|].
  destruct (String.eqb (class_name x) c) eqn:E.
  - intros [= ->]. split; [now left | now apply String.eqb_eq].
  - intros H. destruct (IH H). split; [now right | assumption].
Qed.

Lemma classes_dict_key t f :
  In t classes ->
  In f (class_fields t) ->
  dict_key true (class_name t) (name (fst f)) = alias (fst f).
Proof.
  assert (H : forallb (fun t =>
                forallb (fun f => String.eqb (dict_key true (class_name t) (name (fst f)))
                                             (alias (fst f)))
                        (class_fields t)) classes = true) by (vm_compute; reflexivity).
  rewrite forallb_forall in H. intros Ht Hf. specialize (H t Ht).
  rewrite forallb_forall in H. now apply String.eqb_eq, H.
Qed.

(** X10.  The encoding of an instance writes every field its class
    declares, in declaration order, [type] first where the class has it:
    under the names of the fields when [dict] is called without arguments,
    under their aliases when it is called by alias.  An optional field that
    holds [None] is written as [None], not left out. *)
Theorem dict_writes_every_field :
  forall (c : string) (d : list (string * pyobj)) (t' : type_),
    find_class c classes = Some t' ->
    fields_admit admits d (class_fields t') = true ->
    exists kvs kvs',
      dict_ false (PModel c d) = Some (PDict kvs)
      /\ map fst kvs = map (fun f => name (fst f)) (class_fields t')
      /\ dict_ true (PModel c d) = Some (PDict kvs')
      /\ map fst kvs' = map (fun f => alias (fst f)) (class_fields t')
      /\ (forall k, In (k, PNone) d -> In (k, PNone) kvs).
Proof.
  intros c d t' Hc Hd.
  destruct (find_class_some c classes t' Hc) as [Ht Hn].
  pose proof (fields_admit_names admits d (class_fields t') Hd) as Hnames.
  do 2 eexists. split; [reflexivity|]. split; [|split; [reflexivity|split]].
  - rewrite map_map. cbn [fst dict_key]. exact Hnames.
  - rewrite map_map. cbn [fst].
    rewrite <- (map_map fst (dict_key true c)), Hnames, map_map.
    apply map_ext_in. intros f Hf. rewrite <- Hn. now apply classes_dict_key.
  - intros k Hk. apply in_map_iff. exists (k, PNone). now split.
Qed.

(** *** The encoding without aliases *)

Lemma written_by_name cls fs :
  Forall (fun f => forall v, conforms (snd f) v = true ->
                     get_value false v = get_value true v) fs ->
  forallb (fun f => String.eqb (dict_key true cls (name (fst f))) (alias (fst f))) fs = true ->
  forallb (fun f => String.eqb (alias (fst f)) (name (fst f))) fs = true ->
  forall d,
    fields_conform conforms fs d = true ->
    map (fun kv => (dict_key false cls (fst kv), get_value false (snd kv))) d
    = map (fun kv => (dict_key true cls (fst kv), get_value true (snd kv))) d.
Proof.
  induction 1 as [|f fs Hf _ IH]; intros Hk Ha [|[k x] d];
    cbn [fields_conform map fst snd]; try discriminate.
  - reflexivity.
  - intros Hc. cbn [forallb] in Hk, Ha.
    apply andb_true_iff in Hk as [Hkf Hk]. apply andb_true_iff in Ha as [Haf Ha].
    apply andb_true_iff in Hc as [Hc Hrest]. apply andb_true_iff in Hc as [Hname Hx].
    apply String.eqb_eq in Hname, Hkf, Haf. subst k.
    rewrite (IH Hk Ha d Hrest), Hkf, Haf.
    change (dict_key false cls (name (fst f))) with (name (fst f)). do 2 f_equal.
    unfold field_conforms in Hx.
    destruct x; try reflexivity;
      try (destruct (field_shape (fst f)); [now apply Hf | discriminate]).
    destruct (field_shape (fst f)).
    + now rewrite conforms_list_false in Hx.
    + cbn [get_value]. f_equal. apply map_ext_in. intros y Hy.
      rewrite forallb_forall in Hx. now apply Hf, Hx.
Qed.

Lemma model_by_name cls fs d :
  aliases_are_names (T_model cls fs) = true ->
  well_formed (T_model cls fs) = true ->
  Forall (fun f => forall v, conforms (snd f) v = true ->
                     get_value false v = get_value true v) fs ->
  fields_conform conforms fs d = true ->
  map (fun kv => (dict_key false cls (fst kv), get_value false (snd kv))) d
  = map (fun kv => (dict_key true cls (fst kv), get_value true (snd kv))) d.
Proof.
  intros Ha Hwf HF Hfc. cbn [aliases_are_names] in Ha. cbn [well_formed] in Hwf.
  apply andb_true_iff in Hwf as [Hwf _]. apply andb_true_iff in Hwf as [Hwf _].
  apply andb_true_iff in Hwf as [_ Hkey].
  apply (written_by_name cls fs HF Hkey); [|exact Hfc].
  apply forallb_forall. intros f Hf. rewrite forallb_forall in Ha.
  specialize (Ha f Hf). now apply andb_true_iff in Ha as [Ha _].
Qed.

Lemma get_value_by_name :
  forall t, aliases_are_names t = true -> well_formed t = true ->
  forall v, conforms t v = true -> get_value false v = get_value true v.
Proof.
  induction t as [| | |enum members|cls fs IH] using type_nested_ind;
    intros Ha Hwf v Hc; try (destruct v; try discriminate; reflexivity).
  destruct v as [| | | | | | |c d]; try discriminate.
  rewrite conforms_model in Hc. apply andb_true_iff in Hc as [Hcls Hfc].
  apply String.eqb_eq in Hcls. subst c.
  cbn [get_value]. rewrite (model_by_name cls fs d Ha Hwf); [reflexivity | | exact Hfc].
  cbn [aliases_are_names well_formed] in Ha, Hwf.
  apply andb_true_iff in Hwf as [_ Hsub].
  rewrite forallb_forall in Ha, Hsub. rewrite Forall_forall in IH |- *.
  intros f Hf. apply IH; [assumption | | now apply Hsub].
  specialize (Ha f Hf). now apply andb_true_iff in Ha as [_ Ha].
Qed.

Lemma dict_by_name cls fs d :
  aliases_are_names (T_model cls fs) = true ->
  well_formed (T_model cls fs) = true ->
  fields_conform conforms fs d = true ->
  dict_ false (PModel cls d) = dict_ true (PModel cls d).
Proof.
  intros Ha Hwf Hfc. cbn [dict_].
  rewrite (model_by_name cls fs d Ha Hwf); [reflexivity | | exact Hfc].
  cbn [aliases_are_names well_formed] in Ha, Hwf.
  apply andb_true_iff in Hwf as [_ Hsub].
  rewrite forallb_forall in Ha, Hsub. apply Forall_forall.
  intros f Hf. apply get_value_by_name; [|now apply Hsub].
  specialize (Ha f Hf). now apply andb_true_iff in Ha as [_ Ha].
Qed.

Lemma parse_obj_written cls fs d :
  well_formed (T_model cls fs) = true ->
  fields_conform conforms fs d = true ->
  dict_ true (PModel cls d) = Some (PDict (written fs d))
  /\ parse_obj py (T_model cls fs) (PDict (written fs d)) = Ok (PModel cls d).
Proof.
  intros Hwf Hfc.
  destruct (model_encoding py cls fs d Hwf Hfc) as (Hd & _ & _ & _ & Hkw).
  split; [exact Hd|].
  unfold parse_obj, BaseModel_parse_obj, model_fields. cbn [class_name class_fields].
  rewrite Hkw. unfold init.
  cbn [well_formed] in Hwf. apply andb_true_iff in Hwf as [Hwf Hsub].
  apply andb_true_iff in Hwf as [Hwf _]. apply andb_true_iff in Hwf as [Hdist _].
  destruct (distinct_self_key fs d Hdist) as [Hdist' Hself]. rewrite Hself.
  assert (HF : Forall (fun f => forall v, conforms (snd f) v = true ->
                         validate py (snd f) (get_value true v) = Valid v
                         /\ get_value true v <> PNone) fs).
  { rewrite forallb_forall in Hsub. apply Forall_forall.
    intros f Hf. apply validate_get_value. now apply Hsub. }
  assert (Hget : forall f kx, In (f, kx) (combine fs d) ->
            get (alias (fst f)) (written fs d) = Some (get_value true (snd kx)))
    by (intros f kx Hin; now apply get_written).
  now rewrite (validate_model_roundtrip py (written fs d) fs HF d Hfc Hget).
Qed.

Lemma classes_by_name t :
  In t classes -> class_name t <> "Json" -> aliases_are_names t = true.
Proof.
  assert (H : forallb (fun t => String.eqb (class_name t) "Json" || aliases_are_names t)
                      classes = true) by (vm_compute; reflexivity).
  rewrite forallb_forall in H. intros Ht Hn. specialize (H t Ht).
  apply orb_true_iff in H as [H | H]; [|assumption].
  now apply String.eqb_eq in H.
Qed.

(** X11.  For every class but [Json] the encoding [dict] gives when it is
    called without arguments decodes back to the value, for every value
    that conforms to the class: no other class has a field whose alias
    differs from its name.  For [Json] that encoding writes the content
    under [Json], which the decoder does not read, and decoding it gives an
    element whose content is [None]. *)
Theorem default_encoding_roundtrip :
  forall (t : type_) (v : pyobj),
    In t classes ->
    class_name t <> "Json" ->
    conforms t v = true ->
    (exists obj, dict_ false v = Some obj /\ parse_obj py t obj = Ok v)
    /\ (forall s,
          exists obj,
            dict_ false (Json_element s) = Some obj
            /\ parse_obj py Json obj
               = Ok (PModel "Json" [("type", PStr "Json"); ("Json", PNone)])).
Proof.
  intros t v Ht Hn Hc. split.
  - destruct (classes_well_formed t Ht) as (Hwf & _ & cls & fs & ->).
    pose proof (classes_by_name _ Ht Hn) as Ha.
    destruct v as [| | | | | | |c d]; try discriminate.
    rewrite conforms_model in Hc. apply andb_true_iff in Hc as [Hcls Hfc].
    apply String.eqb_eq in Hcls. subst c.
    destruct (parse_obj_written cls fs d Hwf Hfc) as [Hd Hp].
    exists (PDict (written fs d)). split; [|exact Hp].
    now rewrite (dict_by_name cls fs d Ha Hwf Hfc).
  - intros s. eexists. split; reflexivity.
Qed.

(** *** The order of the keys *)

Lemma get_permutation {A} (kw kw' : list (string * A)) k :
  NoDup (map fst kw) -> Permutation kw kw' -> get k kw = get k kw'.
Proof.
  intros Hnd Hp. induction Hp as [|[k1 x1] l l' Hp IH|[k1 x1] [k2 x2] l|l l' l'' Hp1 IH1 Hp2 IH2].
  - reflexivity.
  - simpl. inversion Hnd; subst. now rewrite IH.
  - simpl. destruct (String.eqb k1 k) eqn:E1, (String.eqb k2 k) eqn:E2; try reflexivity.
    apply String.eqb_eq in E1, E2. subst. inversion Hnd; subst.
    exfalso. apply H1. now left.
  - rewrite IH1 by assumption. apply IH2.
    eapply Permutation_NoDup; [|exact Hnd]. now apply Permutation_map.
Qed.

Lemma validate_model_ext (fields : list ModelField) kw kw' :
  (forall k, get k kw = get k kw') ->
  validate_model fields kw = validate_model fields kw'.
Proof.
  intros H. induction fields as [|f fields IH]; simpl; [reflexivity|].
  now rewrite IH, H.
Qed.

(** X12.  Decoding does not depend on the order of the keys of a payload:
    two payloads with the same items in different orders decode to the same
    result or the same error. *)
Theorem decoding_ignores_key_order :
  forall (t : type_) (kw kw' : list (string * pyobj)),
    In t records ->
    NoDup (map fst kw) ->
    Permutation kw kw' ->
    parse_obj py t (PDict kw) = parse_obj py t (PDict kw').
Proof.
  intros t kw kw' Ht Hnd Hp.
  rewrite !(parse_obj_dict py t _ (records_no_root t Ht)).
  unfold construct, init.
  rewrite (get_permutation kw kw' "__pydantic_self__" Hnd Hp).
  rewrite (validate_model_ext _ kw kw'); [reflexivity|].
  intros k. now apply get_permutation.
Qed.

(** *** A round trip of a chain of variants *)

Lemma classes_no_self_key t f :
  In t classes ->
  In f (class_fields t) ->
  name (fst f) <> "__pydantic_self__" /\ alias (fst f) <> "__pydantic_self__".
Proof.
  assert (H : forallb (fun t =>
                forallb (fun f => negb (String.eqb (name (fst f)) "__pydantic_self__")
                                  && negb (String.eqb (alias (fst f)) "__pydantic_self__"))
                        (class_fields t)) classes = true) by (vm_compute; reflexivity).
  rewrite forallb_forall in H. intros Ht Hf. specialize (H t Ht).
  rewrite forallb_forall in H. specialize (H f Hf).
  apply andb_true_iff in H as [Hn Ha]. apply negb_true_iff in Hn, Ha.
  split; now apply String.eqb_neq.
Qed.

Lemma dict_key_not_self by_alias c t' k :
  find_class c classes = Some t' ->
  In k (map (fun f => name (fst f)) (class_fields t')) ->
  dict_key by_alias c k <> "__pydantic_self__".
Proof.
  intros Hc Hk. destruct (find_class_some c classes t' Hc) as [Ht _].
  assert (Hname : k <> "__pydantic_self__").
  { apply in_map_iff in Hk as (f & <- & Hf). now apply (classes_no_self_key t' f Ht Hf). }
  unfold dict_key. destruct by_alias; [|assumption]. rewrite Hc.
  destruct (find _ (class_fields t')) as [g|] eqn:Hg; [|assumption].
  apply find_some in Hg as [Hg _]. now apply (classes_no_self_key t' g Ht Hg).
Qed.

Lemma Element_encoding by_alias e :
  admits e Element = true ->
  exists tl,
    get_value by_alias e = PDict (("type", PStr (type_of e)) :: tl)
    /\ get "__pydantic_self__" tl = None.
Proof.
  destruct e as [| | | | | | |c d0]; try discriminate.
  intros HA. apply admits_model_inv in HA as (cls & fs & t' & [= <- <-] & Hs & Hc & Hd).
  destruct (Element_subclass_fields c Hs) as (t'' & dflt & rest & Hc' & Hf & Hn).
  rewrite Hc in Hc'. injection Hc' as <-.
  pose proof (get_value_no_root by_alias c d0 t' Hc Hn Hd) as Hdict.
  pose proof (fields_admit_names _ _ _ Hd) as Hnames.
  rewrite Hf in Hd. destruct d0 as [|[k x] d0]; [discriminate|].
  cbn [fields_admit] in Hd. apply andb_true_iff in Hd as [Hd _].
  apply andb_true_iff in Hd as [Hk Hx]. apply String.eqb_eq in Hk. cbn in Hk. subst k.
  assert (exists s, x = PStr s) as [s ->].
  { destruct x; try discriminate. now exists s. }
  assert (Hg : get_value by_alias (PModel c (("type", PStr s) :: d0))
               = PDict (map (fun kv => (dict_key by_alias c (fst kv),
                                        get_value by_alias (snd kv)))
                            (("type", PStr s) :: d0)))
    by (cbn [dict_] in Hdict; congruence).
  rewrite Hg. cbn [map fst snd].
  assert (Hk : dict_key by_alias c "type" = "type").
  { unfold dict_key. destruct by_alias; [|reflexivity]. now rewrite Hc, Hf. }
  rewrite Hk. eexists. split; [reflexivity|].
  apply get_none_of_keys. intros k' Hk'. rewrite map_map in Hk'. cbn [fst] in Hk'.
  apply in_map_iff in Hk' as (kx & <- & Hkx).
  apply (dict_key_not_self by_alias c t' (fst kx) Hc).
  rewrite <- Hnames. right. now apply in_map.
Qed.

(** X13.  What a round trip does to a chain of valid elements, whatever
    their classes: the encoding of the chain decodes to the chain of the
    same length whose elements are instances of the base class, each
    holding the [type] of the element it stands for and nothing else. *)
Theorem chain_roundtrip_keeps_types_only :
  forall (elements : list pyobj) (by_alias : bool),
    Forall (fun e => admits e Element = true) elements ->
    exists obj,
      dict_ by_alias (chain_of elements) = Some obj
      /\ parse_obj py MessageChain obj
         = Ok (chain_of (map (fun e => base_element (type_of e)) elements)).
Proof.
  intros elements by_alias H.
  exists (PDict [("__root__", PList (map (get_value by_alias) elements))]).
  split; [destruct by_alias; reflexivity|].
  change (parse_obj py MessageChain
            (PDict [("__root__", PList (map (get_value by_alias) elements))]))
    with (MessageChain_init py (PList (map (get_value by_alias) elements))).
  rewrite MessageChain_init_list.
  assert (Hseq : forall i,
            validate_sequence_like (validate py Element) [LKey "__root__"] i
              (map (get_value by_alias) elements)
            = (map (fun e => base_element (type_of e)) elements, [])).
  { induction H as [|e elements He _ IH]; intros i; [reflexivity|].
    cbn [map validate_sequence_like]. rewrite IH.
    destruct (Element_encoding by_alias e He) as (tl & -> & Hself).
    rewrite validate_item_some by discriminate.
    rewrite Element_validate_dict, Element_init.
    change (get "__pydantic_self__" (("type", PStr (type_of e)) :: tl))
      with (get "__pydantic_self__" tl).
    rewrite Hself, get_cons_eq. reflexivity. }
  now rewrite Hseq.
Qed.

End MoreProperties.

(** ** The further properties on examples *)

Lemma payload_without_keys_witness :
  parse_obj numerals File (PDict [("x", PInt 1)])
  = ValidationError "File"
      [([LKey "id"], MissingError); ([LKey "name"], MissingError);
       ([LKey "size"], MissingError)]
  /\ parse_obj numerals Voice (PDict [("x", PInt 1)])
     = Ok (PModel "Voice"
             [("type", PStr "Voice"); ("voiceId", PNone); ("url", PNone); ("path", PNone);
              ("base64", PNone); ("length", PNone)]).
Proof.
  split.
  - refine (proj1 (payload_without_keys numerals File [("x", PInt 1)] _ eq_refl _)).
    + unfold records, variants. simpl. tauto.
    + simpl. intros f H. repeat (destruct H as [<- | H]; [reflexivity|]). contradiction.
  - refine (proj1 (payload_without_keys numerals Voice [("x", PInt 1)] _ eq_refl _)).
    + unfold records, variants. simpl. tauto.
    + simpl. intros f H. repeat (destruct H as [<- | H]; [reflexivity|]). contradiction.
Defined.

Lemma unread_key_is_ignored_witness :
  parse_obj numerals Plain (PDict [("bold", PBool true); ("text", PStr "hi")])
  = parse_obj numerals Plain (PDict [("text", PStr "hi")])
  /\ parse_obj numerals Plain (PDict [("__pydantic_self__", PInt 1); ("text", PStr "hi")])
     = TypeError.
Proof.
  assert (Hin : In Plain records) by (unfold records, variants; simpl; tauto).
  split.
  - apply (unread_key_is_ignored numerals Plain [("text", PStr "hi")] "bold" (PBool true)
             Hin eq_refl).
    discriminate.
  - apply (unread_key_is_ignored numerals Plain [("text", PStr "hi")] "__pydantic_self__"
             (PInt 1) Hin eq_refl).
    reflexivity.
Defined.

Lemma explicit_None_witness :
  (exists errors,
     parse_obj numerals Plain (PDict [("text", PNone)]) = ValidationError "Plain" errors
     /\ In ([LKey "text"], NoneIsNotAllowedError) errors)
  /\ (exists d,
        PModel "At" [("type", PStr "At"); ("target", PInt 5); ("display", PNone)]
        = PModel "At" d
        /\ In ("display", PNone) d).
Proof.
  split.
  - apply (proj1 (explicit_None numerals Plain (fst (req "text" T_str)) T_str
                    [("text", PNone)]
                    ltac:(unfold records, variants; simpl; tauto)
                    ltac:(simpl; tauto) eq_refl)).
    + reflexivity.
    + left. reflexivity.
  - apply (proj2 (explicit_None numerals At (fst (opt "display" T_str)) T_str
                    [("target", PInt 5); ("display", PNone)]
                    ltac:(unfold records, variants; simpl; tauto)
                    ltac:(simpl; tauto) eq_refl)).
    + reflexivity.
    + discriminate.
    + reflexivity.
Defined.

Lemma MusicShare_kind_accepts_the_members_witness :
  parse_obj numerals MusicShare (PDict [("type", PStr "MusicShare"); ("kind", PStr "QQMusic")])
  = Ok (MusicShare_of "MusicShare" "QQMusic")
  /\ parse_obj numerals MusicShare (PDict [("type", PStr "MusicShare"); ("kind", PStr "Spotify")])
     = ValidationError "MusicShare" [([LKey "kind"], EnumMemberError)].
Proof.
  split.
  - apply (MusicShare_kind_accepts_the_members numerals
             [("type", PStr "MusicShare"); ("kind", PStr "QQMusic")]
             "MusicShare" "QQMusic" eq_refl eq_refl eq_refl).
    + simpl. intros k H. repeat (destruct H as [<- | H]; [reflexivity|]). contradiction.
    + simpl. tauto.
  - apply (MusicShare_kind_accepts_the_members numerals
             [("type", PStr "MusicShare"); ("kind", PStr "Spotify")]
             "MusicShare" "Spotify" eq_refl eq_refl eq_refl).
    + simpl. intros k H. repeat (destruct H as [<- | H]; [reflexivity|]). contradiction.
    + simpl. intros H. repeat (destruct H as [H | H]; [discriminate|]). contradiction.
Defined.

Lemma MessageChain_keeps_instances_witness :
  MessageChain_init numerals (PList [Plain_hi; Quote_nested])
  = Ok (chain_of [Plain_hi; Quote_nested]).
Proof.
  apply (MessageChain_keeps_instances numerals [Plain_hi; Quote_nested]).
  repeat constructor.
Defined.

Lemma MessageChain_parse_obj_is_init_witness :
  parse_obj numerals MessageChain (PDict [("__root__", PList [AtAll_payload])])
  = MessageChain_init numerals (PList [AtAll_payload])
  /\ parse_obj numerals MessageChain (chain_of [Plain_hi]) = Ok (chain_of [Plain_hi])
  /\ MessageChain_init numerals (chain_of [Plain_hi])
     = ValidationError "MessageChain" [([LKey "__root__"], ListError)]
  /\ parse_obj numerals MessageChain (PList [AtAll_payload])
     = MessageChain_init numerals (PList [AtAll_payload])
  /\ validate numerals MessageChain (PList [AtAll_payload])
     = raised (MessageChain_init numerals (PList [AtAll_payload])).
Proof.
  destruct (MessageChain_parse_obj_is_init numerals (PList [AtAll_payload]))
    as (H1 & _ & Hc & H2).
  destruct H2 as [H2 H3]; [discriminate | discriminate |].
  destruct (Hc [Plain_hi]) as [Hp Hi].
  split; [exact H1|]. split; [rewrite Hp; reflexivity|]. split; [exact Hi|].
  split; [exact H2 | exact (H3 eq_refl)].
Defined.

Lemma Quote_origin_is_a_chain_witness :
  (exists d c,
     Quote_decoded = PModel "Quote" d
     /\ MessageChain_init numerals (PList [Plain_hi_payload]) = Ok c
     /\ In ("origin", c) d)
  /\ (exists errors,
        parse_obj numerals Quote
          (PDict [("id", PInt 1); ("groupId", PInt 0); ("senderId", PInt 2);
                  ("targetId", PInt 3); ("origin", PList [PInt 5])])
        = ValidationError "Quote" errors
        /\ incl (relocate [LKey "origin"] [([LKey "__root__"; LIdx 0], DictError)]) errors).
Proof.
  split.
  - apply (proj1 (Quote_origin_is_a_chain numerals
                    [("id", PInt 1); ("groupId", PInt 0); ("senderId", PInt 2);
                     ("targetId", PInt 3); ("origin", PList [Plain_hi_payload])]
                    [Plain_hi_payload] eq_refl)).
    reflexivity.
  - apply (proj2 (Quote_origin_is_a_chain numerals
                    [("id", PInt 1); ("groupId", PInt 0); ("senderId", PInt 2);
                     ("targetId", PInt 3); ("origin", PList [PInt 5])]
                    [PInt 5] eq_refl)); reflexivity.
Defined.

Lemma Forward_decodes_its_nodes_witness :
  (exists d ns,
     PModel "Forward" [("type", PStr "Forward"); ("nodeList", PList [node_decoded])]
     = PModel "Forward" d
     /\ In ("nodeList", PList ns) d
     /\ Forall2 (fun p n => validate numerals ForwardNode p = Valid n) [node_payload] ns)
  /\ (exists errors,
        parse_obj numerals Forward (PDict [("nodeList", PList [node_payload; PNone])])
        = ValidationError "Forward" errors
        /\ [([] : list loc_item, NoneIsNotAllowedError)] <> []
        /\ incl (relocate [LKey "nodeList"; LIdx 1] [([], NoneIsNotAllowedError)]) errors).
Proof.
  split.
  - apply (proj1 (Forward_decodes_its_nodes numerals
                    [("nodeList", PList [node_payload])] [node_payload] eq_refl)).
    reflexivity.
  - apply (proj2 (Forward_decodes_its_nodes numerals
                    [("nodeList", PList [node_payload; PNone])] [node_payload; PNone]
                    eq_refl) 1 PNone); reflexivity.
Defined.

Lemma dict_writes_every_field_witness :
  exists kvs kvs',
    dict_ false (Json_element json_text) = Some (PDict kvs)
    /\ map fst kvs = map (fun f => name (fst f)) (class_fields Json)
    /\ dict_ true (Json_element json_text) = Some (PDict kvs')
    /\ map fst kvs' = map (fun f => alias (fst f)) (class_fields Json)
    /\ (forall k, In (k, PNone) [("type", PStr "Json"); ("Json", PStr json_text)] ->
                  In (k, PNone) kvs).
Proof.
  exact (dict_writes_every_field "Json" [("type", PStr "Json"); ("Json", PStr json_text)]
           Json eq_refl eq_refl).
Defined.

Lemma default_encoding_roundtrip_witness :
  exists obj, dict_ false Quote_decoded = Some obj
              /\ parse_obj numerals Quote obj = Ok Quote_decoded.
Proof.
  apply (proj1 (default_encoding_roundtrip numerals Quote Quote_decoded
                  ltac:(unfold classes, variants; simpl; tauto)
                  ltac:(discriminate) eq_refl)).
Defined.

Lemma decoding_ignores_key_order_witness :
  parse_obj numerals Plain (PDict [("type", PStr "Plain"); ("text", PStr "hi")])
  = parse_obj numerals Plain (PDict [("text", PStr "hi"); ("type", PStr "Plain")]).
Proof.
  apply (decoding_ignores_key_order numerals Plain).
  - unfold records, variants. simpl. tauto.
  - repeat constructor; simpl; intuition discriminate.
  - apply perm_swap.
Defined.

Lemma chain_roundtrip_keeps_types_only_witness :
  exists obj,
    dict_ true (chain_of [Quote_nested; Plain_hi]) = Some obj
    /\ parse_obj numerals MessageChain obj
       = Ok (chain_of [base_element "Quote"; base_element "Plain"]).
Proof.
  apply (chain_roundtrip_keeps_types_only numerals [Quote_nested; Plain_hi] true).
  repeat constructor.
Defined.
